(** * scholar_scraper: a shallow embedding of [s-index/scholar_scraper.py]

    The script fetches a Google Scholar profile, extracts the citation
    metrics and the paginated publication list with BeautifulSoup, and
    prints three views of the list.  The embedding follows the script
    function by function:

    - Python [str] values are [string]s whose characters are read as the
      code points 0..255 (the Latin-1 range of Unicode); [str.strip],
      [str.isdigit] and [int(str)] are written out for that range;
    - a parsed page (the [BeautifulSoup] object) is a tree of tags and
      text nodes; [find], [find_all] and [get_text(strip=True)] walk it
      in document order;
    - exceptions are explicit ([outcome]), [print] appends to a list of
      written lines ([io]), and the [while True] loop of
      [get_publications] takes fuel and logs every URL it requests. *)

From Stdlib Require Import ZArith NArith List String Ascii Bool Lia.
From Stdlib Require Import Permutation Sorted DecimalString SpecFloat.
Import ListNotations.

Local Open Scope string_scope.
Local Open Scope Z_scope.
Local Open Scope list_scope.

(* ================================================================= *)
(** ** Exceptions, results and standard output *)

Inductive exn : Type :=
| ValueError
| KeyError (key : string)
| TypeError
| ZeroDivisionError
| OverflowError.

Inductive outcome (A : Type) : Type :=
| Ret (a : A)
| Raise (e : exn).

Arguments Ret {A} a.
Arguments Raise {A} e.

Definition obind {A B} (m : outcome A) (k : A -> outcome B) : outcome B :=
  match m with
  | Ret a => k a
  | Raise e => Raise e
  end.

(** [for x in l: ys.append(f x)] where [f] may raise: the first exception
    ends the loop. *)
Fixpoint omap {A B} (f : A -> outcome B) (l : list A) : outcome (list B) :=
  match l with
  | [] => Ret []
  | x :: l' => obind (f x) (fun y => obind (omap f l') (fun ys => Ret (y :: ys)))
  end.

(** A run of printing code: the lines written so far (one entry per
    [print] call, without the final newline) and how the run ended. *)
Definition io (A : Type) : Type := (list string * outcome A)%type.

Definition io_ret {A} (a : A) : io A := ([], Ret a).

Definition io_raise {A} (e : exn) : io A := ([], Raise e).

Definition io_bind {A B} (m : io A) (k : A -> io B) : io B :=
  match m with
  | (out, Ret a) => let (out', r) := k a in (out ++ out', r)
  | (out, Raise e) => (out, Raise e)
  end.

Definition print (s : string) : io unit := ([s], Ret tt).

Definition io_lift {A} (m : outcome A) : io A := ([], m).

Declare Scope io_scope.
Delimit Scope io_scope with io.
Notation "x <- m ;; k" := (io_bind m (fun x => k))
  (at level 61, m at next level, right associativity) : io_scope.
Notation "m ;; k" := (io_bind m (fun _ => k))
  (at level 61, right associativity) : io_scope.

(** [for x in l: body x] *)
Fixpoint io_for {A} (l : list A) (body : A -> io unit) : io unit :=
  match l with
  | [] => io_ret tt
  | x :: l' => io_bind (body x) (fun _ => io_for l' body)
  end.

(* ================================================================= *)
(** ** Python strings *)

Module PyStr.

Definition code (c : ascii) : N := N_of_ascii c.

Definition between (lo hi : N) (c : ascii) : bool :=
  ((lo <=? code c) && (code c <=? hi))%N.

(** [str.isspace] on one character: TAB..CR, FS..US, space, NEL, NBSP.
    This is the set [str.strip()] removes. *)
Definition isspace (c : ascii) : bool :=
  between 9 13 c || between 28 32 c || (code c =? 133)%N || (code c =? 160)%N.

(** The blanks [int()] skips around a literal: the same set without
    FS..US. *)
Definition int_isspace (c : ascii) : bool :=
  between 9 13 c || (code c =? 32)%N || (code c =? 133)%N || (code c =? 160)%N.

(** The decimal digits ['0'..'9']. *)
Definition isdecimal_char (c : ascii) : bool := between 48 57 c.

(** [str.isdigit] on one character: the decimal digits and the
    superscripts two, three and one. *)
Definition isdigit_char (c : ascii) : bool :=
  isdecimal_char c || (code c =? 178)%N || (code c =? 179)%N || (code c =? 185)%N.

Definition is_empty (s : string) : bool :=
  match s with
  | EmptyString => true
  | String _ _ => false
  end.

Fixpoint all_chars (p : ascii -> bool) (s : string) : bool :=
  match s with
  | EmptyString => true
  | String c s' => p c && all_chars p s'
  end.

(** [s.isdigit()]: at least one character, all of them digits. *)
Definition isdigit (s : string) : bool :=
  negb (is_empty s) && all_chars isdigit_char s.

Fixpoint lstrip_with (sp : ascii -> bool) (s : string) : string :=
  match s with
  | EmptyString => EmptyString
  | String c s' => if sp c then lstrip_with sp s' else s
  end.

Fixpoint rstrip_with (sp : ascii -> bool) (s : string) : string :=
  match s with
  | EmptyString => EmptyString
  | String c s' =>
      let r := rstrip_with sp s' in
      if sp c && is_empty r then EmptyString else String c r
  end.

(** [s.strip()] *)
Definition strip (s : string) : string :=
  lstrip_with isspace (rstrip_with isspace s).

Definition digit_value (c : ascii) : Z := Z.of_N (code c) - 48.

(** The digit part of an integer literal: decimal digits, with single
    underscores allowed between two digits.  Returns the value and the
    number of digits read. *)
Fixpoint int_digits (s : string) (acc : Z) (n : N) (after_digit : bool)
  : option (Z * N) :=
  match s with
  | EmptyString => if after_digit then Some (acc, n) else None
  | String c s' =>
      if isdecimal_char c then
        int_digits s' (10 * acc + digit_value c) (n + 1)%N true
      else if Ascii.eqb c "_" && after_digit then
        int_digits s' acc n false
      else None
  end.

(** The digit count above which the interpreter's limit on integer
    string conversion is consulted. *)
Definition max_str_digits_threshold : N := 640.

(** [int(s)] for a [str]; [None] stands for [ValueError].
    [max_str_digits] is [sys.get_int_max_str_digits()], where 0 switches
    the limit off. *)
Definition int (max_str_digits : N) (s : string) : option Z :=
  let s1 := lstrip_with int_isspace (rstrip_with int_isspace s) in
  let '(neg, body) :=
    match s1 with
    | String c s' =>
        if Ascii.eqb c "-" then (true, s')
        else if Ascii.eqb c "+" then (false, s')
        else (false, s1)
    | EmptyString => (false, s1)
    end in
  match int_digits body 0 0%N false with
  | Some (v, n) =>
      if ((max_str_digits_threshold <? n) && negb (max_str_digits =? 0)
          && (max_str_digits <? n))%N
      then None
      else Some (if neg then - v else v)
  | None => None
  end.

(** No character of [s] is a minus sign. *)
Definition no_minus_sign (s : string) : bool :=
  all_chars (fun c => negb (Ascii.eqb c "-")) s.

(** The decimal text of an [int]: what [str(n)] and an f-string give
    for it, as long as [n] has no more digits than the interpreter's
    limit on converted integers allows (see [small_int] below). *)
Definition str_of_int (z : Z) : string := NilZero.string_of_int (Z.to_int z).

(** [s * n] *)
Fixpoint repeat_str (s : string) (n : nat) : string :=
  match n with
  | O => EmptyString
  | S n' => (s ++ repeat_str s n')%string
  end.

End PyStr.

(* ================================================================= *)
(** ** Parsed pages *)

Module Soup.

(** A node of the tree BeautifulSoup builds: a text string, or a tag with
    its name, its [id] attribute, the values of its [class] attribute and
    its children in document order.  Comments and the contents of
    script and style elements, which [get_text] passes over, are not
    part of the tree. *)
#[warnings="-register-all"]
Inductive node : Type :=
| Text (s : string)
| Tag (name : string) (id : option string) (classes : list string)
      (children : list node).

(** [tag.descendants]: every node below [n], in document order. *)
Fixpoint descendants (n : node) : list node :=
  match n with
  | Text _ => []
  | Tag _ _ _ children => flat_map (fun c => c :: descendants c) children
  end.

Definition mem_string (s : string) (l : list string) : bool :=
  existsb (String.eqb s) l.

(** The filter of [find_all(name, class_=cls)]. *)
Definition has_class (name cls : string) (n : node) : bool :=
  match n with
  | Text _ => false
  | Tag name' _ classes _ => String.eqb name' name && mem_string cls classes
  end.

(** The filter of [find(name, {'id': i})]. *)
Definition has_id (name i : string) (n : node) : bool :=
  match n with
  | Tag name' (Some i') _ _ => String.eqb name' name && String.eqb i' i
  | _ => false
  end.

Definition find_all (p : node -> bool) (n : node) : list node :=
  filter p (descendants n).

(** [find] is the first result of [find_all], or [None]. *)
Definition find (p : node -> bool) (n : node) : option node :=
  hd_error (find_all p n).

Definition text_of (n : node) : list string :=
  match n with
  | Text s => [s]
  | Tag _ _ _ _ => []
  end.

(** [tag.get_text(strip=True)]: the strings below the tag, each one
    stripped, the empty ones dropped, joined without a separator. *)
Definition get_text_strip (n : node) : string :=
  String.concat ""
    (filter (fun s => negb (PyStr.is_empty s))
       (map PyStr.strip (flat_map text_of (descendants n)))).

End Soup.

Import Soup.

(* ================================================================= *)
(** ** The data the script handles *)

(** The outcome of [requests.get(url, headers=headers)] followed by
    [raise_for_status()] and [BeautifulSoup(response.content, ...)]: the
    parsed page, a [RequestException] with its text, or any other
    exception with its text (the parser rejecting the markup it was
    given, for one). *)
Inductive response : Type :=
| HttpOk (soup : node)
| RequestException (msg : string)
| OtherException (msg : string).

(** The dictionary [get_h_index] fills in. *)
Record metrics : Type := {
  citations_all : string;
  citations_recent : string;
  h_index_all : string;
  h_index_recent : string;
  i10_index_all : string;
  i10_index_recent : string;
  name : option string
}.

(** What [get_h_index] returns: the metrics, or [{"error": msg}]. *)
Inductive metrics_result : Type :=
| Metrics (m : metrics)
| MetricsError (msg : string).

(** A publication dictionary.  [get_publications] sets the first five
    keys on every row; ['age'] is added by
    [find_undercited_publications]. *)
Record publication : Type := {
  title : string;
  authors : string;
  venue : string;
  year : string;
  citations : Z;
  age : option Z
}.

(** A dictionary as [get_publications] builds it. *)
Definition mk_pub (t a v y : string) (c : Z) : publication :=
  {| title := t; authors := a; venue := v; year := y; citations := c;
     age := None |}.

(** What [get_publications] returns and the views take: the list of
    publications, or [{"error": msg}]. *)
Inductive fetch_result : Type :=
| PubList (publications : list publication)
| ErrorResult (msg : string).

(* ================================================================= *)
(** ** get_h_index *)

Definition str_of_nat (n : nat) : string := PyStr.str_of_int (Z.of_nat n).

(** Lines 25..48, on the parsed profile page. *)
Definition parse_metrics (soup : node) : metrics_result :=
  match find (has_id "table" "gsc_rsb_st") soup with
  | None => MetricsError "Could not find metrics table on the page"
  | Some _ =>
      let metric_values := find_all (has_class "td" "gsc_rsb_std") soup in
      match metric_values with
      | v0 :: v1 :: v2 :: v3 :: v4 :: v5 :: _ =>
          Metrics {|
            citations_all := get_text_strip v0;
            citations_recent := get_text_strip v1;
            h_index_all := get_text_strip v2;
            h_index_recent := get_text_strip v3;
            i10_index_all := get_text_strip v4;
            i10_index_recent := get_text_strip v5;
            name := option_map get_text_strip
                      (find (has_id "div" "gsc_prf_in") soup)
          |}
      | _ =>
          MetricsError ("Expected 6 metric values, found "
                        ++ str_of_nat (List.length metric_values))%string
      end
  end.

(* ================================================================= *)
(** ** get_publications *)

(** [re.search(key + '([^&]+)', s)] and [group(1)]: the leftmost place
    where [key] is followed by a character other than [&], and the
    longest run of such characters from there. *)
Fixpoint until_amp (s : string) : string :=
  match s with
  | EmptyString => EmptyString
  | String c s' => if Ascii.eqb c "&" then EmptyString else String c (until_amp s')
  end.

Definition match_here (key s : string) : option string :=
  if String.prefix key s then
    let run := until_amp (String.substring (String.length key)
                            (String.length s - String.length key) s) in
    if PyStr.is_empty run then None else Some run
  else None.

Fixpoint search_param (key s : string) : option string :=
  match match_here key s with
  | Some g => Some g
  | None =>
      match s with
      | EmptyString => None
      | String _ s' => search_param key s'
      end
  end.

Definition page_size : Z := 100.

(** Line 88. *)
Definition listing_url (user_id lang : string) (start : Z) : string :=
  ("https://scholar.google.de/citations?user=" ++ user_id
   ++ "&hl=" ++ lang
   ++ "&cstart=" ++ PyStr.str_of_int start
   ++ "&pagesize=" ++ PyStr.str_of_int page_size)%string.

(** Lines 79..80. *)
Definition url_lang (scholar_url : string) : string :=
  match search_param "hl=" scholar_url with
  | Some l => l
  | None => "en"
  end.

Definition fetched (r : response) : bool :=
  match r with
  | HttpOk _ => true
  | RequestException _ => false
  | OtherException _ => false
  end.

Definition text_or (default : string) (e : option node) : string :=
  match e with
  | Some n => get_text_strip n
  | None => default
  end.

(** The rows of one listing page (line 96). *)
Definition pub_rows (soup : node) : list node :=
  find_all (has_class "tr" "gsc_a_tr") soup.

Definition rows_of (r : response) : list node :=
  match r with
  | HttpOk soup => pub_rows soup
  | RequestException _ => []
  | OtherException _ => []
  end.

(* ================================================================= *)
(** ** sorted *)

(** [sorted(l, key=key, reverse=reverse)].  The keys are computed once
    and the list is sorted on them by a stable sort; with [reverse] the
    list is reversed before and after, which keeps equal keys in their
    original order. *)
Fixpoint insert_keyed {A} (x : Z * A) (l : list (Z * A)) : list (Z * A) :=
  match l with
  | [] => [x]
  | y :: l' => if fst x <=? fst y then x :: l else y :: insert_keyed x l'
  end.

Definition stable_sort {A} (l : list (Z * A)) : list (Z * A) :=
  fold_right insert_keyed [] l.

(** The order [sorted] produces when [reverse] is set. *)
Definition sort_desc {A} (l : list (Z * A)) : list (Z * A) :=
  rev (stable_sort (rev l)).

Definition sorted_keyed {A} (reverse : bool) (l : list (Z * A)) : list A :=
  map snd (if reverse then sort_desc l else stable_sort l).

Definition key_le {A} (x y : Z * A) : Prop := fst x <= fst y.
Definition key_ge {A} (x y : Z * A) : Prop := fst y <= fst x.
Definition has_key {A} (k : Z) (x : Z * A) : bool := fst x =? k.

Definition decorate {A} (key : A -> Z) (l : list A) : list (Z * A) :=
  map (fun x => (key x, x)) l.

Definition py_sorted {A} (key : A -> Z) (reverse : bool) (l : list A) : list A :=
  sorted_keyed reverse (decorate key l).

(** The same with a key that may raise: the first failing key aborts the
    call before anything is sorted. *)
Definition py_sorted_raising {A} (key : A -> outcome Z) (reverse : bool)
    (l : list A) : outcome (list A) :=
  obind (omap (fun x => obind (key x) (fun k => Ret (k, x))) l)
        (fun keyed => Ret (sorted_keyed reverse keyed)).

(** [enumerate(l, start)] *)
Fixpoint enumerate {A} (start : Z) (l : list A) : list (Z * A) :=
  match l with
  | [] => []
  | x :: l' => (start, x) :: enumerate (start + 1) l'
  end.

(* ================================================================= *)
(** ** The views that need no interpreter setting *)

Definition nl : string := String "010"%char EmptyString.

Definition rule : string := PyStr.repeat_str "=" 100.

(** Lines 179..184: one entry of the ranking. *)
Definition render_ranked (entry : Z * publication) : list string :=
  let (i, pub) := entry in
  [ (PyStr.str_of_int i ++ ". " ++ title pub)%string;
    ("   Authors: " ++ authors pub)%string;
    ("   Venue: " ++ venue pub)%string;
    ("   Year: " ++ year pub)%string;
    ("   Citations: " ++ PyStr.str_of_int (citations pub))%string;
    "" ].

(** Line 172. *)
Definition ranking (publications : list publication) : list publication :=
  py_sorted citations true publications.

Definition print_publications_sorted (publications : fetch_result) : io unit :=
  match publications with
  | ErrorResult msg => print ("Error: " ++ msg)%string
  | PubList l =>
      let sorted_pubs := ranking l in
      (print (nl ++ rule)%string ;;
       print ("PUBLICATIONS SORTED BY CITATIONS (Total: "
              ++ str_of_nat (List.length sorted_pubs) ++ ")")%string ;;
       print (rule ++ nl)%string ;;
       io_for (enumerate 1 sorted_pubs)
         (fun entry => io_for (render_ranked entry) print))%io
  end.

(** [pub['age']] *)
Definition get_age (pub : publication) : outcome Z :=
  match age pub with
  | Some a => Ret a
  | None => Raise (KeyError "age")
  end.

(** The sort key of line 238 and the deficit of line 246. *)
Definition deficit (pub : publication) : outcome Z :=
  obind (get_age pub) (fun a => Ret (a - citations pub)).

(** The deficit of a publication that carries its age. *)
Definition deficit_value (pub : publication) : Z :=
  match deficit pub with
  | Ret d => d
  | Raise _ => 0
  end.

Definition has_age (pub : publication) : bool :=
  match age pub with
  | Some _ => true
  | None => false
  end.

(** Lines 245..252: one entry of the undercited list. *)
Definition print_undercited_entry (entry : Z * publication) : io unit :=
  let (i, pub) := entry in
  (d <- io_lift (deficit pub) ;;
   print (PyStr.str_of_int i ++ ". " ++ title pub)%string ;;
   print ("   Authors: " ++ authors pub)%string ;;
   print ("   Venue: " ++ venue pub)%string ;;
   a <- io_lift (get_age pub) ;;
   print ("   Year: " ++ year pub ++ " (Age: " ++ PyStr.str_of_int a
          ++ " years)")%string ;;
   print ("   Citations: " ++ PyStr.str_of_int (citations pub)
          ++ " (Deficit: " ++ PyStr.str_of_int d ++ " citations)")%string ;;
   print "")%io.

Definition undercited_title : string :=
  "UNDERCITED PUBLICATIONS (Citations < Age in Years)".

(** Lines 229..252.  Given the error dictionary, [not undercited_pubs]
    is false (the dictionary has a key), [sorted] walks its keys and the
    key function indexes the string ["error"] with ['age']: a
    [TypeError], before anything is printed. *)
Definition print_undercited_publications (undercited_pubs : fetch_result)
  : io unit :=
  match undercited_pubs with
  | ErrorResult _ => io_raise TypeError
  | PubList [] =>
      (print (nl ++ rule)%string ;;
       print undercited_title ;;
       print rule ;;
       print (nl ++ "No undercited publications found.")%string)%io
  | PubList l =>
      (sorted_undercited <- io_lift (py_sorted_raising deficit true l) ;;
       print (nl ++ rule)%string ;;
       print (undercited_title ++ " - Total: "
              ++ str_of_nat (List.length sorted_undercited))%string ;;
       print (rule ++ nl)%string ;;
       io_for (enumerate 1 sorted_undercited) print_undercited_entry)%io
  end.

(** A number as the summary block handles it: an [int], or a [float],
    which is a binary64 value of IEEE 754. *)
Inductive number : Type :=
| IntNum (z : Z)
| FloatNum (f : spec_float).


(** An [int] as the operand of a float division: the integer itself,
    with all its bits. *)
Definition float_of_int (z : Z) : spec_float :=
  match z with
  | Z0 => S754_zero false
  | Zpos p => S754_finite false p 0
  | Zneg p => S754_finite true p 0
  end.

(** The float nearest to the quotient of two [int]s: the binary64
    division of IEEE 754, rounding to nearest, ties to even. *)
Definition float_quotient (a b : Z) : spec_float :=
  SFdiv 53 1024 (float_of_int a) (float_of_int b).

(** The quotient of [a] by [b] rounds beyond the largest float: its
    absolute value is at least [2 ^ 1024 - 2 ^ 970], half way between
    the largest float and [2 ^ 1024]. *)
Definition float_overflow (a b : Z) : bool :=
  (2 ^ 1024 - 2 ^ 970) * Z.abs b <=? Z.abs a.

(** [a / b] on two [int]s: [ZeroDivisionError] for a zero divisor,
    [OverflowError] when the result is too large for a float, and
    otherwise the float nearest to the quotient. *)
Definition py_truediv (a b : Z) : outcome spec_float :=
  if b =? 0 then Raise ZeroDivisionError
  else if float_overflow a b then Raise OverflowError
  else Ret (float_quotient a b).

(** Line 292. *)
Definition total_citations (publications : list publication) : Z :=
  fold_left (fun acc pub => acc + citations pub) publications 0.

(** Line 293: the float quotient, or the [int] 0 for an empty list. *)
Definition avg_citations (publications : list publication) : outcome number :=
  match publications with
  | [] => Ret (IntNum 0)
  | _ :: _ =>
      obind (py_truediv (total_citations publications)
                        (Z.of_nat (List.length publications)))
            (fun f => Ret (FloatNum f))
  end.

(** The figures the summary block prints, in the order of lines
    298..302. *)
Record summary : Type := {
  summary_publications : nat;
  summary_citations : Z;
  summary_average : number;
  summary_most_cited : option Z;
  summary_undercited : nat
}.

(** Line 301: [publications[0]['citations']], or the text ["N/A"]
    ([None]) for an empty list. *)
Definition most_cited (publications : list publication) : option Z :=
  match publications with
  | pub :: _ => Some (citations pub)
  | [] => None
  end.

(** Lines 291..302.  [None]: the block is skipped. *)
Definition summary_statistics (publications : fetch_result)
    (undercited : list publication) : outcome (option summary) :=
  match publications with
  | PubList ((_ :: _) as l) =>
      obind (avg_citations l) (fun avg =>
        Ret (Some {|
          summary_publications := List.length l;
          summary_citations := total_citations l;
          summary_average := avg;
          summary_most_cited := most_cited l;
          summary_undercited := List.length undercited
        |}))
  | _ => Ret None
  end.

(* ================================================================= *)
(** ** The functions that fetch pages or parse integers *)

Section Scraper.

(** [sys.get_int_max_str_digits()] of the interpreter running the
    script. *)
Variable int_max_str_digits : N.

(** The web, as [requests.get] sees it. *)
Variable requests_get : string -> response.

(** Lines 15..53: the request, the extraction and the two handlers. *)
Definition get_h_index (scholar_url : string) : metrics_result :=
  match requests_get scholar_url with
  | RequestException msg => MetricsError ("Request failed: " ++ msg)%string
  | OtherException msg => MetricsError ("An error occurred: " ++ msg)%string
  | HttpOk soup => parse_metrics soup
  end.

(** Lines 133..142. *)
Definition extract_citations (row : node) : Z :=
  match find (has_class "a" "gsc_a_ac") row with
  | Some citations_elem =>
      let citations_text := get_text_strip citations_elem in
      if PyStr.is_empty citations_text then 0
      else match PyStr.int int_max_str_digits citations_text with
           | Some n => n
           | None => 0
           end
  | None => 0
  end.

(** Lines 102..142: the dictionary built for one row. *)
Definition extract_publication (row : node) : publication :=
  {| title := text_or "N/A" (find (has_class "a" "gsc_a_at") row);
     authors := text_or "N/A" (find (has_class "div" "gs_gray") row);
     venue :=
       match find_all (has_class "div" "gs_gray") row with
       | _ :: v :: _ => get_text_strip v
       | _ => "N/A"
       end;
     year :=
       match find (has_class "span" "gsc_a_h") row with
       | Some year_elem =>
           let year_text := get_text_strip year_elem in
           if PyStr.is_empty year_text then "N/A" else year_text
       | None => "N/A"
       end;
     citations := extract_citations row;
     age := None |}.


(** Lines 86..157: the loop and the two handlers around it.
    [requested] logs the URLs fetched so far; [None] means the fuel ran
    out before the loop ended.  The offset is written into the URL
    without regard to the interpreter's limit on the digits of a
    converted integer, which an offset only reaches after more than
    [10 ^ 637] requests. *)
Fixpoint fetch_pages (fuel : nat) (user_id lang : string)
    (publications : list publication) (start : Z) (requested : list string)
  : option (list string * fetch_result) :=
  match fuel with
  | O => None
  | S fuel' =>
      let url := listing_url user_id lang start in
      let requested := requested ++ [url] in
      match requests_get url with
      | RequestException msg =>
          Some (requested, ErrorResult ("Request failed: " ++ msg)%string)
      | OtherException msg =>
          Some (requested, ErrorResult ("An error occurred: " ++ msg)%string)
      | HttpOk soup =>
          let rows := pub_rows soup in
          match rows with
          | [] => Some (requested, PubList publications)
          | _ :: _ =>
              let publications := publications ++ map extract_publication rows in
              if Z.of_nat (List.length rows) <? page_size
              then Some (requested, PubList publications)
              else fetch_pages fuel' user_id lang publications
                     (start + page_size) requested
          end
      end
  end.

Definition get_publications (fuel : nat) (scholar_url : string)
  : option (list string * fetch_result) :=
  match search_param "user=" scholar_url with
  | None => Some ([], ErrorResult "Could not extract user ID from URL")
  | Some user_id => fetch_pages fuel user_id (url_lang scholar_url) [] 0 []
  end.

(** The fetcher as the loop sees it: the answer to the request for the
    [k]-th page, and the rows found in an answer. *)
Definition page_at (user_id lang : string) (k : nat) : response :=
  requests_get (listing_url user_id lang (page_size * Z.of_nat k)).

(** [pub['age'] = a].  Python updates the dictionary in place, so the
    lists that hold it see the new key; the embedding returns the
    updated record. *)
Definition set_age (pub : publication) (a : Z) : publication :=
  {| title := title pub; authors := authors pub; venue := venue pub;
     year := year pub; citations := citations pub; age := Some a |}.

(** Lines 204..217: the body of the loop, for one publication.
    [Ret None] is [continue] or a failed test; [int(year_str)] may raise
    [ValueError]. *)
Definition undercited_entry (current_year : Z) (pub : publication)
  : outcome (option publication) :=
  let year_str := year pub in
  if String.eqb year_str "N/A" || negb (PyStr.isdigit year_str) then Ret None
  else
    match PyStr.int int_max_str_digits year_str with
    | None => Raise ValueError
    | Some y =>
        let a := current_year - y in
        if (0 <? a) && (citations pub <? a) then Ret (Some (set_age pub a))
        else Ret None
    end.

Fixpoint undercited_loop (current_year : Z) (publications undercited : list publication)
  : outcome (list publication) :=
  match publications with
  | [] => Ret undercited
  | pub :: rest =>
      obind (undercited_entry current_year pub) (fun r =>
        undercited_loop current_year rest
          match r with
          | Some pub' => undercited ++ [pub']
          | None => undercited
          end)
  end.

Definition find_undercited_publications (publications : fetch_result)
    (current_year : Z) : outcome (list publication) :=
  match publications with
  | ErrorResult _ => Ret []
  | PubList l => undercited_loop current_year l []
  end.

End Scraper.

(** Lines 287..288 of the script: the undercited list is computed and
    handed to its printer. *)
Definition undercitation_view (int_max_str_digits : N)
    (publications : fetch_result) (current_year : Z) : io unit :=
  (undercited <- io_lift (find_undercited_publications int_max_str_digits
                            publications current_year) ;;
   print_undercited_publications (PubList undercited))%io.

(* ================================================================= *)
(** ** The script *)

(** Lines 264..277: the metrics block. *)
Definition print_metrics (m : metrics_result) : io unit :=
  match m with
  | MetricsError msg => print ("Error getting metrics: " ++ msg)%string
  | Metrics m =>
      (print (PyStr.repeat_str "=" 50) ;;
       print "CITATION METRICS" ;;
       print (PyStr.repeat_str "=" 50) ;;
       match name m with
       | Some n => print ("Researcher: " ++ n)%string
       | None => io_ret tt
       end ;;
       print (nl ++ "Citations (All): " ++ citations_all m)%string ;;
       print ("Citations (Since 2020): " ++ citations_recent m)%string ;;
       print (nl ++ "h-index (All): " ++ h_index_all m)%string ;;
       print ("h-index (Since 2020): " ++ h_index_recent m)%string ;;
       print (nl ++ "i10-index (All): " ++ i10_index_all m)%string ;;
       print ("i10-index (Since 2020): " ++ i10_index_recent m)%string)%io
  end.

(** An [int] far inside the range where [str()] is below the
    interpreter's digit limit, which cannot be set under 640 digits, and
    where a quotient by a positive [int] is in the range of a float.
    What is said of printed output is said for such numbers: beyond
    the digit limit [str()] and the f-strings raise [ValueError], which
    [PyStr.str_of_int] does not show. *)
Definition small_int (z : Z) : Prop := Z.abs z < 10 ^ 300.

Definition small_counts (publications : fetch_result) : Prop :=
  match publications with
  | PubList l => Forall (fun pub => small_int (citations pub)) l
  | ErrorResult _ => True
  end.

(** Citation counts and ages of ordinary size, for the undercited
    publications that are printed with their age and their deficit. *)
Definition small_entries (undercited : list publication) : Prop :=
  Forall (fun pub =>
            small_int (citations pub)
            /\ forall a, age pub = Some a -> small_int a)
         undercited.

(** The URL the script works on (line 257). *)
Definition script_url : string :=
  "https://scholar.google.de/citations?user=6ImtercAAAAJ&hl=de&oi=ao".

Section Script.

Variable int_max_str_digits : N.
Variable requests_get : string -> response.

(** [f"{x:.2f}"]: the text of a float is not computed here. *)
Variable format_2f : number -> string.

(** Lines 291..302: the summary block, printing the figures of
    [summary_statistics]. *)
Definition print_summary (publications : fetch_result)
    (undercited : list publication) : io unit :=
  (figures <- io_lift (summary_statistics publications undercited) ;;
   match figures with
   | None => io_ret tt
   | Some s =>
       print rule ;;
       print "SUMMARY STATISTICS" ;;
       print rule ;;
       print ("Total Publications: "
              ++ str_of_nat (summary_publications s))%string ;;
       print ("Total Citations: "
              ++ PyStr.str_of_int (summary_citations s))%string ;;
       print ("Average Citations per Publication: "
              ++ format_2f (summary_average s))%string ;;
       print match summary_most_cited s with
             | Some c => ("Most Cited Publication: " ++ PyStr.str_of_int c
                          ++ " citations")%string
             | None => "N/A"
             end ;;
       print ("Undercited Publications: "
              ++ str_of_nat (summary_undercited s))%string
   end)%io.

(** Lines 256..302.  [None]: the loop of [get_publications] did not end
    within [fuel] turns.  The ages [find_undercited_publications] writes
    into the publications are not read by the summary block.  See
    [small_int] for the numbers the printed text is right for. *)
Definition script (fuel : nat) : option (io unit) :=
  match get_publications int_max_str_digits requests_get fuel script_url with
  | None => None
  | Some (_, publications) =>
      Some (print ("Scraping Google Scholar profile: " ++ script_url ++ nl)%string ;;
            print_metrics (get_h_index requests_get script_url) ;;
            print (nl ++ "Fetching publications...")%string ;;
            print_publications_sorted publications ;;
            undercited <- io_lift (find_undercited_publications
                                     int_max_str_digits publications 2025) ;;
            print_undercited_publications (PubList undercited) ;;
            print_summary publications undercited)%io
  end.

End Script.

(* ================================================================= *)
(** ** Sample pages *)

Module Sample.

(** The profile URL of the script's last block. *)
Definition profile_url : string :=
  "https://scholar.google.de/citations?user=6ImtercAAAAJ&hl=de&oi=ao".

Definition span (cls text : string) : node :=
  Tag "span" None [cls] [Text text].

(** A publication row as the listing page has it: a title link, two
    gray lines, the citation link and the year. *)
Definition row (t a v cited y : string) : node :=
  Tag "tr" None ["gsc_a_tr"]
    [ Tag "td" None ["gsc_a_t"]
        [ Tag "a" None ["gsc_a_at"] [Text t];
          Tag "div" None ["gs_gray"] [Text a];
          Tag "div" None ["gs_gray"] [Text v] ];
      Tag "td" None ["gsc_a_c"] [Tag "a" None ["gsc_a_ac"] [Text cited]];
      Tag "td" None ["gsc_a_y"] [span "gsc_a_h" y] ].

Definition listing (rows : list node) : node :=
  Tag "[document]" None []
    [Tag "table" (Some "gsc_a_t") [] [Tag "tbody" (Some "gsc_a_b") [] rows]].

Definition some_row : node := row "A paper" "A. Author" "A venue" "7" "2019".

(** A server with 237 publications: two full pages and one of 37. *)
Definition three_pages (url : string) : response :=
  if String.eqb url (listing_url "6ImtercAAAAJ" "de" 0)
  then HttpOk (listing (repeat some_row 100))
  else if String.eqb url (listing_url "6ImtercAAAAJ" "de" 100)
  then HttpOk (listing (repeat some_row 100))
  else if String.eqb url (listing_url "6ImtercAAAAJ" "de" 200)
  then HttpOk (listing (repeat some_row 37))
  else RequestException "404 Client Error".

(** A server whose first listing page has no row. *)
Definition no_pages (url : string) : response := HttpOk (listing []).

(** The one-character string made of the superscript two, U+00B2. *)
Definition superscript_two : string := String "178"%char EmptyString.

Definition old_paper : publication :=
  mk_pub "An old paper" "A. Author" "A venue" "2000" 0.

(** A publication whose year reads as the superscript two. *)
Definition odd_year_paper : publication :=
  mk_pub "A paper" "A. Author" "A venue" superscript_two 0.

Definition uncited_paper : publication :=
  mk_pub "A new paper" "A. Author" "A venue" "2024" 0.

Definition cited_paper : publication :=
  mk_pub "A known paper" "A. Author" "A venue" "2015" 5.

(** A server with two publications, the second with the superscript two
    as its year. *)
Definition odd_year (url : string) : response :=
  HttpOk (listing [ row "An old paper" "A. Author" "A venue" "0" "2000";
                    row "A paper" "A. Author" "A venue" "0" superscript_two ]).

(** A server whose only publication shows "-3" as its citation count. *)
Definition negative_count (url : string) : response :=
  HttpOk (listing [row "A paper" "A. Author" "A venue" "-3" "2019"]).

Definition cell (text : string) : node :=
  Tag "td" None ["gsc_rsb_std"] [Text text].

(** A profile page whose statistics table holds four value cells, with
    two more value cells in another table. *)
Definition split_profile : node :=
  Tag "[document]" None []
    [ Tag "div" (Some "gsc_prf_in") [] [Text "A. Author"];
      Tag "table" (Some "gsc_rsb_st") []
        [ Tag "tr" None [] [cell "120"; cell "80"];
          Tag "tr" None [] [cell "6"; cell "5"] ];
      Tag "table" None []
        [ Tag "tr" None [] [cell "4"; cell "3"] ] ].

(** A profile page with four value cells in all. *)
Definition short_profile : node :=
  Tag "[document]" None []
    [ Tag "table" (Some "gsc_rsb_st") []
        [ Tag "tr" None [] [cell "120"; cell "80"];
          Tag "tr" None [] [cell "6"; cell "5"] ] ].

(** A server that answers every request with a full page. *)
Definition endless (url : string) : response :=
  HttpOk (listing (repeat some_row 100)).

(** A server whose answers the parser rejects. *)
Definition bad_markup (url : string) : response :=
  OtherException "bad markup".

(** A server that delivers two full pages and then fails. *)
Definition two_pages_then_error (url : string) : response :=
  if String.eqb url (listing_url "6ImtercAAAAJ" "de" 0)
  then HttpOk (listing (repeat some_row 100))
  else if String.eqb url (listing_url "6ImtercAAAAJ" "de" 100)
  then HttpOk (listing (repeat some_row 100))
  else RequestException "503 Server Error".

End Sample.

(* ================================================================= *)
(** * Properties *)

(** ** The model on small inputs

    Each line restates what the Python interpreter answers on the same
    input. *)

Example int_signed :
  map (PyStr.int 4300) ["-3"; "+3"; "-0"; "0012"; " 12 "]
  = [Some (-3); Some 3; Some 0; Some 12; Some 12].
Proof. reflexivity. Qed.

Example int_underscores :
  map (PyStr.int 4300) ["1_0"; "1__0"; "_1"; "1_"; "+_1"]
  = [Some 10; None; None; None; None].
Proof. reflexivity. Qed.

Example int_rejected :
  map (PyStr.int 4300) [""; "+"; "-"; "- 3"; "--3"; "1 2"; "1.0"; "1e3"; "0x10"]
  = [None; None; None; None; None; None; None; None; None].
Proof. reflexivity. Qed.

(** FS (U+001C) is white space for [strip] but not for [int]; NBSP
    (U+00A0) is white space for both. *)
Example int_blanks :
  PyStr.int 4300 (String "028"%char "5") = None
  /\ PyStr.strip (String "028"%char "5") = "5"
  /\ PyStr.int 4300 (String "160"%char "5") = Some 5.
Proof. repeat split. Qed.

(** The limit on the number of digits counts leading zeros but neither
    the sign nor the underscores. *)
Example int_digit_limit :
  PyStr.int 4300 (PyStr.repeat_str "9" 4300) <> None
  /\ PyStr.int 4300 (PyStr.repeat_str "9" 4301) = None
  /\ PyStr.int 4300 (PyStr.repeat_str "0" 4301) = None
  /\ PyStr.int 4300 ("-" ++ PyStr.repeat_str "9" 4300) <> None
  /\ PyStr.int 4300 (PyStr.repeat_str "1_" 4299 ++ "1") <> None
  /\ PyStr.int 0 (PyStr.repeat_str "9" 4301) <> None.
Proof. vm_compute. repeat split; discriminate. Qed.

Example isdigit_samples :
  map PyStr.isdigit ["2020"; "0012"; "N/A"; ""; "-3"; " 12"; Sample.superscript_two]
  = [true; true; false; false; false; false; true].
Proof. reflexivity. Qed.

Example str_of_int_samples :
  map PyStr.str_of_int [0; -5; 1000] = ["0"; "-5"; "1000"].
Proof. reflexivity. Qed.

Example search_param_samples :
  map (search_param "user=")
      ["https://x?user=&user=abc&hl=de"; "xuser=a&b"; "user="; "user=&";
       "USER=a"; "user==&"]
  = [Some "abc"; Some "a"; None; None; None; Some "="]
  /\ map url_lang ["hl=&hl=fr&user=1"; "user=a&xhl=zz"; "user=abc"]
     = ["fr"; "zz"; "en"].
Proof. split; reflexivity. Qed.

Example listing_url_sample :
  listing_url "6ImtercAAAAJ" "de" 200
  = "https://scholar.google.de/citations?user=6ImtercAAAAJ&hl=de&cstart=200&pagesize=100".
Proof. reflexivity. Qed.

Example extract_publication_sample :
  extract_publication 4300 Sample.some_row
  = mk_pub "A paper" "A. Author" "A venue" "2019" 7.
Proof. reflexivity. Qed.

(** A row without any of the five elements gets the defaults. *)
Example extract_publication_defaults :
  extract_publication 4300 (Tag "tr" None ["gsc_a_tr"] [])
  = mk_pub "N/A" "N/A" "N/A" "N/A" 0.
Proof. reflexivity. Qed.

(** The division of two [int]s: the nearest float, ties to even, also
    for operands that no float holds exactly. *)
Example py_truediv_samples :
  map (fun ab => py_truediv (fst ab) (snd ab))
      [(1, 3); (-7, 3); (0, 5); (2 ^ 53 + 1, 1); (10 ^ 400, 10 ^ 399); (1, 0)]
  = [ Ret (S754_finite false 6004799503160661 (-54));
      Ret (S754_finite true 5254199565265579 (-51));
      Ret (S754_zero false);
      Ret (S754_finite false 4503599627370496 1);
      Ret (S754_finite false 5629499534213120 (-49));
      Raise ZeroDivisionError ].
Proof. vm_compute. reflexivity. Qed.

(** The largest float and the first quotient beyond it, where the
    division of IEEE 754 gives an infinity and Python raises. *)
Example py_truediv_overflow :
  py_truediv (2 ^ 1024 - 2 ^ 970 - 1) 1
  = Ret (S754_finite false 9007199254740991 971)
  /\ py_truediv (3 * (2 ^ 1024 - 2 ^ 970) - 1) 3
     = Ret (S754_finite false 9007199254740991 971)
  /\ py_truediv (2 ^ 1024 - 2 ^ 970) 1 = Raise OverflowError
  /\ float_quotient (2 ^ 1024 - 2 ^ 970) 1 = S754_infinity false
  /\ py_truediv (10 ^ 400) 1 = Raise OverflowError.
Proof. vm_compute. repeat split. Qed.

Example py_sorted_stable_sample :
  py_sorted fst true [(1, "a"); (2, "b"); (1, "c"); (2, "d")]
  = [(2, "b"); (2, "d"); (1, "a"); (1, "c")].
Proof. reflexivity. Qed.

(** ** The stable sort behind [sorted] *)

Section Sorting.

Context {A : Type}.

Lemma insert_keyed_perm (x : Z * A) l : Permutation (insert_keyed x l) (x :: l).
Proof.
  induction l as [|y l IH]; simpl; [reflexivity|].
  destruct (fst x <=? fst y); [reflexivity|].
  rewrite IH. apply perm_swap.
Qed.

Lemma insert_keyed_sorted (x : Z * A) l :
  StronglySorted key_le l -> StronglySorted key_le (insert_keyed x l).
Proof.
  induction 1 as [|y l Hl IH Hy]; simpl.
  - repeat constructor.
  - destruct (fst x <=? fst y) eqn:E.
    + apply Z.leb_le in E. constructor; [now constructor|].
      constructor; [exact E|].
      eapply Forall_impl; [|exact Hy]. unfold key_le. intros; lia.
    + apply Z.leb_gt in E. constructor; [exact IH|].
      rewrite (insert_keyed_perm x l). constructor; [unfold key_le; lia|exact Hy].
Qed.

Lemma insert_keyed_filter k (x : Z * A) l :
  filter (has_key k) (insert_keyed x l) = filter (has_key k) (x :: l).
Proof.
  induction l as [|y l IH]; [reflexivity|].
  cbn [insert_keyed]. destruct (fst x <=? fst y) eqn:E; [reflexivity|].
  apply Z.leb_gt in E. cbn [filter] in *. rewrite IH. unfold has_key.
  destruct (fst x =? k) eqn:Ex; [|reflexivity].
  apply Z.eqb_eq in Ex.
  replace (fst y =? k) with false; [reflexivity|].
  symmetry. apply Z.eqb_neq. lia.
Qed.

Lemma stable_sort_perm (l : list (Z * A)) : Permutation (stable_sort l) l.
Proof.
  induction l as [|x l IH]; simpl; [reflexivity|].
  rewrite insert_keyed_perm. now constructor.
Qed.

Lemma stable_sort_sorted (l : list (Z * A)) : StronglySorted key_le (stable_sort l).
Proof.
  induction l as [|x l IH]; simpl; [constructor|].
  now apply insert_keyed_sorted.
Qed.

Lemma stable_sort_filter k (l : list (Z * A)) :
  filter (has_key k) (stable_sort l) = filter (has_key k) l.
Proof.
  induction l as [|x l IH]; [reflexivity|].
  cbn [stable_sort fold_right]. rewrite insert_keyed_filter.
  cbn [filter]. fold (stable_sort l). now rewrite IH.
Qed.

Lemma StronglySorted_snoc (R : Z * A -> Z * A -> Prop) l x :
  StronglySorted R l -> Forall (fun y => R y x) l -> StronglySorted R (l ++ [x]).
Proof.
  induction 1 as [|y l Hl IH Hy]; intros Hx; simpl.
  - repeat constructor.
  - inversion Hx; subst. constructor; [now apply IH|].
    apply Forall_app. split; [exact Hy|]. now constructor.
Qed.

Lemma StronglySorted_rev_ge (l : list (Z * A)) :
  StronglySorted key_le l -> StronglySorted key_ge (rev l).
Proof.
  induction 1 as [|y l Hl IH Hy]; simpl; [constructor|].
  apply StronglySorted_snoc; [exact IH|].
  apply Forall_rev. exact Hy.
Qed.

Lemma sort_desc_perm (l : list (Z * A)) : Permutation (sort_desc l) l.
Proof.
  unfold sort_desc. rewrite <- Permutation_rev, stable_sort_perm.
  symmetry. apply Permutation_rev.
Qed.

Lemma sort_desc_sorted (l : list (Z * A)) : StronglySorted key_ge (sort_desc l).
Proof. apply StronglySorted_rev_ge, stable_sort_sorted. Qed.

Lemma sort_desc_filter k (l : list (Z * A)) :
  filter (has_key k) (sort_desc l) = filter (has_key k) l.
Proof.
  unfold sort_desc.
  now rewrite filter_rev, stable_sort_filter, filter_rev, rev_involutive.
Qed.

Lemma sorted_keyed_desc (l : list (Z * A)) :
  sorted_keyed true l = map snd (sort_desc l).
Proof. reflexivity. Qed.

(** Sorting a list decorated by [key]: every pair still carries the key
    of its element. *)
Lemma sort_desc_decorated (key : A -> Z) (l : list A) :
  Forall (fun p => fst p = key (snd p)) (sort_desc (decorate key l)).
Proof.
  assert (H : Forall (fun p : Z * A => fst p = key (snd p)) (decorate key l)).
  { unfold decorate. apply Forall_forall. intros p Hp.
    apply in_map_iff in Hp. destruct Hp as (x & <- & _). reflexivity. }
  apply Forall_forall. intros p Hp.
  eapply Forall_forall in H; [exact H|].
  eapply Permutation_in; [apply sort_desc_perm|exact Hp].
Qed.

Lemma snd_decorate (key : A -> Z) (l : list A) : map snd (decorate key l) = l.
Proof.
  unfold decorate. rewrite map_map. simpl. apply map_id.
Qed.

Lemma filter_decorated (key : A -> Z) k (d : list (Z * A)) :
  Forall (fun p => fst p = key (snd p)) d ->
  filter (fun x => key x =? k) (map snd d) = map snd (filter (has_key k) d).
Proof.
  induction 1 as [|p d Hp Hd IH]; [reflexivity|].
  simpl. unfold has_key at 1. rewrite <- Hp.
  destruct (fst p =? k); simpl; now rewrite IH.
Qed.

Lemma sorted_decorated (key : A -> Z) (d : list (Z * A)) :
  Forall (fun p => fst p = key (snd p)) d ->
  StronglySorted key_ge d ->
  StronglySorted (fun x y => key y <= key x) (map snd d).
Proof.
  intros Hd Hs. induction Hs as [|p d Hs IH Hp]; simpl; [constructor|].
  inversion Hd as [|? ? Hkp Hd']; subst.
  constructor; [now apply IH|].
  apply Forall_map. apply Forall_forall. intros q Hq.
  pose proof (proj1 (Forall_forall _ _) Hp q Hq) as H1.
  pose proof (proj1 (Forall_forall _ _) Hd' q Hq) as H2.
  unfold key_ge in H1. rewrite <- Hkp, <- H2. exact H1.
Qed.

(** [sorted(l, key=key, reverse=True)] is in non-increasing key order. *)
Lemma py_sorted_desc_sorted (key : A -> Z) (l : list A) :
  StronglySorted (fun x y => key y <= key x) (py_sorted key true l).
Proof.
  unfold py_sorted. rewrite sorted_keyed_desc.
  apply sorted_decorated; [apply sort_desc_decorated|apply sort_desc_sorted].
Qed.

(** ... holds the elements of [l] ... *)
Lemma py_sorted_desc_perm (key : A -> Z) (l : list A) :
  Permutation (py_sorted key true l) l.
Proof.
  unfold py_sorted. rewrite sorted_keyed_desc.
  rewrite <- (snd_decorate key l) at 2.
  apply Permutation_map, sort_desc_perm.
Qed.

(** ... and keeps the elements of equal key in the order of [l]. *)
Lemma py_sorted_desc_stable (key : A -> Z) k (l : list A) :
  filter (fun x => key x =? k) (py_sorted key true l)
  = filter (fun x => key x =? k) l.
Proof.
  unfold py_sorted. rewrite sorted_keyed_desc.
  rewrite filter_decorated by apply sort_desc_decorated.
  rewrite sort_desc_filter.
  rewrite <- (filter_decorated key).
  - now rewrite snd_decorate.
  - unfold decorate. apply Forall_forall. intros p Hp.
    apply in_map_iff in Hp. destruct Hp as (x & <- & _). reflexivity.
Qed.

End Sorting.

(* ================================================================= *)
(** ** Printing *)

Lemma io_for_print (lines : list string) : io_for lines print = (lines, Ret tt).
Proof.
  induction lines as [|s lines IH]; [reflexivity|].
  simpl. rewrite IH. reflexivity.
Qed.

Lemma io_for_ret {A} (body : A -> io unit) (l : list A) :
  Forall (fun x => snd (body x) = Ret tt) l ->
  io_for l body = (flat_map (fun x => fst (body x)) l, Ret tt).
Proof.
  induction 1 as [|x l Hx Hl IH]; [reflexivity|].
  simpl. destruct (body x) as [out r]. simpl in Hx. subst r.
  simpl. rewrite IH. reflexivity.
Qed.

(* ================================================================= *)
(** ** Ranking view *)

(** C3: the list [print_publications_sorted] builds is in
    non-increasing order of citation count, is a permutation of the
    publications it was given, and keeps publications of equal count in
    their arrival order; for citation counts of ordinary size it is
    printed in that order, entry by entry. *)
Theorem ranking_sorted_permutation_stable (publications : list publication) :
  StronglySorted (fun p q => citations q <= citations p) (ranking publications)
  /\ Permutation (ranking publications) publications
  /\ (forall c,
        filter (fun p => citations p =? c) (ranking publications)
        = filter (fun p => citations p =? c) publications)
  /\ (small_counts (PubList publications) ->
      print_publications_sorted (PubList publications)
      = ([ (nl ++ rule)%string;
           ("PUBLICATIONS SORTED BY CITATIONS (Total: "
            ++ str_of_nat (List.length publications) ++ ")")%string;
           (rule ++ nl)%string ]
         ++ flat_map render_ranked (enumerate 1 (ranking publications)),
         Ret tt)).
Proof.
  split; [apply py_sorted_desc_sorted|].
  split; [apply py_sorted_desc_perm|].
  split; [intros c; apply py_sorted_desc_stable|].
  intros _. unfold print_publications_sorted.
  fold (ranking publications).
  rewrite (Permutation_length (py_sorted_desc_perm citations publications)
           : List.length (ranking publications) = List.length publications).
  unfold io_bind, print.
  rewrite io_for_ret.
  - cbn [app]. do 4 f_equal. apply flat_map_ext. intros e.
    now rewrite io_for_print.
  - apply Forall_forall. intros e _. now rewrite io_for_print.
Qed.

(* ================================================================= *)
(** ** Undercitation view: rendering *)

Lemma deficit_of_aged (pub : publication) :
  has_age pub = true -> deficit pub = Ret (deficit_value pub).
Proof.
  unfold deficit_value, deficit, get_age, has_age.
  destruct (age pub); [reflexivity|discriminate].
Qed.

Lemma keys_of_aged (l : list publication) :
  Forall (fun p => has_age p = true) l ->
  omap (fun x => obind (deficit x) (fun k => Ret (k, x))) l
  = Ret (decorate deficit_value l).
Proof.
  induction 1 as [|p l Hp Hl IH]; [reflexivity|].
  cbn [omap]. rewrite (deficit_of_aged p Hp), IH. reflexivity.
Qed.

Lemma py_sorted_raising_aged (l : list publication) :
  Forall (fun p => has_age p = true) l ->
  py_sorted_raising deficit true l = Ret (py_sorted deficit_value true l).
Proof.
  intros H. unfold py_sorted_raising. now rewrite keys_of_aged.
Qed.

Lemma print_undercited_entry_aged (i : Z) (pub : publication) :
  has_age pub = true -> snd (print_undercited_entry (i, pub)) = Ret tt.
Proof.
  intros H. unfold print_undercited_entry.
  rewrite (deficit_of_aged pub H).
  unfold get_age, has_age in *. destruct (age pub); [reflexivity|discriminate].
Qed.

Lemma in_enumerate {A} (l : list A) : forall start i x,
  In (i, x) (enumerate start l) -> In x l.
Proof.
  induction l as [|y l IH]; intros start i x; simpl; [tauto|].
  intros [H|H]; [left; congruence|right; eauto].
Qed.

(** C2: given undercited publications that all carry their age,
    [print_undercited_publications] sorts them by deficit, largest
    first, keeping publications of equal deficit in their original
    order, and, for citation counts and ages of ordinary size, prints
    the entries in that order (or the "none found" banner for an empty
    list).  For the three publications of the
    specification's example and the year 2025, the publication of 2020
    (deficit 3) comes before the one of 2023 (deficit 1) and the one
    without a year is left out. *)
Theorem undercited_sorted_by_deficit (undercited_pubs : list publication) :
  Forall (fun p => has_age p = true) undercited_pubs ->
  exists sorted_undercited,
    py_sorted_raising deficit true undercited_pubs = Ret sorted_undercited
    /\ StronglySorted (fun p q => deficit_value q <= deficit_value p)
         sorted_undercited
    /\ (forall d,
          filter (fun p => deficit_value p =? d) sorted_undercited
          = filter (fun p => deficit_value p =? d) undercited_pubs)
    /\ Permutation sorted_undercited undercited_pubs
    /\ (small_entries undercited_pubs ->
        print_undercited_publications (PubList undercited_pubs)
        = (match undercited_pubs with
          | [] => [ (nl ++ rule)%string; undercited_title; rule;
                    (nl ++ "No undercited publications found.")%string ]
          | _ :: _ =>
              [ (nl ++ rule)%string;
                (undercited_title ++ " - Total: "
                 ++ str_of_nat (List.length undercited_pubs))%string;
                (rule ++ nl)%string ]
              ++ flat_map (fun entry => fst (print_undercited_entry entry))
                   (enumerate 1 sorted_undercited)
          end, Ret tt))
    /\ (forall max_digits t1 a1 v1 t2 a2 v2 t3 a3 v3,
          let p1 := mk_pub t1 a1 v1 "2020" 2 in
          let p2 := mk_pub t2 a2 v2 "2023" 1 in
          let p3 := mk_pub t3 a3 v3 "N/A" 0 in
          find_undercited_publications max_digits (PubList [p1; p2; p3]) 2025
          = Ret [set_age p1 5; set_age p2 2]
          /\ py_sorted_raising deficit true [set_age p1 5; set_age p2 2]
             = Ret [set_age p1 5; set_age p2 2]
          /\ deficit (set_age p1 5) = Ret 3
          /\ deficit (set_age p2 2) = Ret 1).
Proof.
  intros Haged. exists (py_sorted deficit_value true undercited_pubs).
  split; [now apply py_sorted_raising_aged|].
  split; [apply py_sorted_desc_sorted|].
  split; [intros d; apply py_sorted_desc_stable|].
  split; [apply py_sorted_desc_perm|].
  split.
  - intros _. destruct undercited_pubs as [|p l]; [reflexivity|].
    unfold print_undercited_publications.
    rewrite (py_sorted_raising_aged _ Haged).
    set (sorted := py_sorted deficit_value true (p :: l)).
    assert (Hlen : List.length sorted = List.length (p :: l))
      by apply Permutation_length, py_sorted_desc_perm.
    unfold io_bind, io_lift, print. rewrite Hlen.
    rewrite io_for_ret; [reflexivity|].
    apply Forall_forall. intros [i q] Hq.
    apply print_undercited_entry_aged.
    apply in_enumerate in Hq.
    apply (proj1 (Forall_forall _ _) Haged).
    eapply Permutation_in; [apply py_sorted_desc_perm|exact Hq].
  - intros. repeat split; vm_compute; reflexivity.
Qed.

Lemma undercited_sorted_by_deficit_witness :
  exists sorted_undercited,
    py_sorted_raising deficit true
      [set_age Sample.uncited_paper 1; set_age Sample.old_paper 25;
       set_age Sample.cited_paper 10; set_age Sample.odd_year_paper 1]
    = Ret sorted_undercited
    /\ sorted_undercited
       = [set_age Sample.old_paper 25; set_age Sample.cited_paper 10;
          set_age Sample.uncited_paper 1; set_age Sample.odd_year_paper 1]
    /\ StronglySorted (fun p q => deficit_value q <= deficit_value p)
         sorted_undercited.
Proof.
  destruct (undercited_sorted_by_deficit
              [set_age Sample.uncited_paper 1; set_age Sample.old_paper 25;
               set_age Sample.cited_paper 10; set_age Sample.odd_year_paper 1])
    as (sorted & Hsorted & Hdesc & _).
  - repeat constructor.
  - exists sorted. split; [exact Hsorted|]. split; [|exact Hdesc].
    vm_compute in Hsorted. injection Hsorted as <-. reflexivity.
Defined.

(* ================================================================= *)
(** ** Pagination driver *)

Section Pagination.

Variable int_max_str_digits : N.
Variable requests_get : string -> response.
Variables user_id lang : string.

Local Abbreviation page := (page_at requests_get user_id lang).
Local Abbreviation url :=
  (fun k : nat => listing_url user_id lang (page_size * Z.of_nat k)).
Local Abbreviation rows :=
  (fun k : nat =>
     map (extract_publication int_max_str_digits) (rows_of (page k))).
Local Abbreviation loop := (fetch_pages int_max_str_digits requests_get).

Lemma next_offset (j : nat) :
  page_size * Z.of_nat j + page_size = page_size * Z.of_nat (S j).
Proof. unfold page_size. lia. Qed.

(** One turn of the loop on a full page: the rows are appended and the
    next page is requested. *)
Lemma fetch_pages_full fuel j pubs req :
  fetched (page j) = true ->
  page_size <= Z.of_nat (List.length (rows_of (page j))) ->
  loop (S fuel) user_id lang pubs (page_size * Z.of_nat j) req
  = loop fuel user_id lang (pubs ++ rows j) (page_size * Z.of_nat (S j))
      (req ++ [url j]).
Proof.
  intros Hf Hlen. cbn [fetch_pages].
  unfold page_at in *.
  destruct (requests_get _) as [soup|msg|msg]; [|discriminate..].
  cbn [rows_of] in *.
  destruct (pub_rows soup) as [|r rs] eqn:E.
  - unfold page_size in Hlen. simpl in Hlen. lia.
  - replace (Z.of_nat (List.length (r :: rs)) <? page_size) with false
      by (symmetry; apply Z.ltb_ge; exact Hlen).
    now rewrite next_offset.
Qed.

(** One turn of the loop on a short (possibly empty) page: it is the
    last one. *)
Lemma fetch_pages_short fuel j pubs req :
  fetched (page j) = true ->
  Z.of_nat (List.length (rows_of (page j))) < page_size ->
  loop (S fuel) user_id lang pubs (page_size * Z.of_nat j) req
  = Some (req ++ [url j], PubList (pubs ++ rows j)).
Proof.
  intros Hf Hlen. cbn [fetch_pages].
  unfold page_at in *.
  destruct (requests_get _) as [soup|msg|msg]; [|discriminate..].
  cbn [rows_of] in *.
  destruct (pub_rows soup) as [|r rs] eqn:E.
  - cbn [map]. now rewrite app_nil_r.
  - now replace (Z.of_nat (List.length (r :: rs)) <? page_size) with true
      by (symmetry; apply Z.ltb_lt; exact Hlen).
Qed.

Lemma fetch_pages_ends n : forall j pubs req fuel,
  (forall k, (k <= n)%nat -> fetched (page (j + k)) = true) ->
  (forall k, (k < n)%nat ->
     page_size <= Z.of_nat (List.length (rows_of (page (j + k))))) ->
  Z.of_nat (List.length (rows_of (page (j + n)))) < page_size ->
  (n < fuel)%nat ->
  loop fuel user_id lang pubs (page_size * Z.of_nat j) req
  = Some (req ++ map url (seq j (S n)),
          PubList (pubs ++ flat_map rows (seq j (S n)))).
Proof.
  induction n as [|n IH]; intros j pubs req fuel Hf Hfull Hshort Hfuel;
    destruct fuel as [|fuel]; try lia.
  - rewrite Nat.add_0_r in Hshort. specialize (Hf 0%nat (Nat.le_refl _)).
    rewrite Nat.add_0_r in Hf.
    rewrite fetch_pages_short by assumption.
    cbn [seq map flat_map]. now rewrite app_nil_r.
  - rewrite fetch_pages_full.
    + rewrite (IH (S j)).
      * cbn [seq map flat_map]. now rewrite <- !app_assoc.
      * intros k Hk. replace (S j + k)%nat with (j + S k)%nat by lia.
        apply Hf. lia.
      * intros k Hk. replace (S j + k)%nat with (j + S k)%nat by lia.
        apply Hfull. lia.
      * now replace (S j + n)%nat with (j + S n)%nat by lia.
      * lia.
    + specialize (Hf 0%nat). rewrite Nat.add_0_r in Hf. apply Hf. lia.
    + specialize (Hfull 0%nat). rewrite Nat.add_0_r in Hfull. apply Hfull. lia.
Qed.

Lemma fetch_pages_needs_fuel n : forall j pubs req fuel,
  (forall k, (k < n)%nat -> fetched (page (j + k)) = true) ->
  (forall k, (k < n)%nat ->
     page_size <= Z.of_nat (List.length (rows_of (page (j + k))))) ->
  (fuel <= n)%nat ->
  loop fuel user_id lang pubs (page_size * Z.of_nat j) req = None.
Proof.
  induction n as [|n IH]; intros j pubs req fuel Hf Hfull Hfuel;
    destruct fuel as [|fuel]; try reflexivity; try lia.
  rewrite fetch_pages_full.
  - apply IH; [| |lia]; intros k Hk;
      replace (S j + k)%nat with (j + S k)%nat by lia;
      [apply Hf|apply Hfull]; lia.
  - specialize (Hf 0%nat). rewrite Nat.add_0_r in Hf. apply Hf. lia.
  - specialize (Hfull 0%nat). rewrite Nat.add_0_r in Hfull. apply Hfull. lia.
Qed.

End Pagination.

(** C4: when the pages requested at offsets 0, 100, ..., 100 n are all
    delivered, the first [n] of them with at least 100 rows and the last
    with fewer than 100 (possibly none), [get_publications] ends after
    exactly [n + 1] requests, one per offset in steps of 100, and
    returns the publications of all pages in page order, then row order.
    Pages of 100, 100 and 37 rows give 237 publications in 3 requests;
    an empty first page gives no publication after the first request. *)
Theorem get_publications_paginates (int_max_str_digits : N)
    (requests_get : string -> response) (scholar_url user_id : string)
    (n : nat) :
  let lang := url_lang scholar_url in
  let page := page_at requests_get user_id lang in
  let requested :=
    map (fun k => listing_url user_id lang (page_size * Z.of_nat k))
        (seq 0 (S n)) in
  let result :=
    flat_map (fun k => map (extract_publication int_max_str_digits)
                           (rows_of (page k)))
             (seq 0 (S n)) in
  search_param "user=" scholar_url = Some user_id ->
  (forall k, (k <= n)%nat -> fetched (page k) = true) ->
  (forall k, (k < n)%nat ->
     page_size <= Z.of_nat (List.length (rows_of (page k)))) ->
  Z.of_nat (List.length (rows_of (page n))) < page_size ->
  (forall fuel, (n < fuel)%nat ->
     get_publications int_max_str_digits requests_get fuel scholar_url
     = Some (requested, PubList result))
  /\ (forall fuel, (fuel <= n)%nat ->
        get_publications int_max_str_digits requests_get fuel scholar_url
        = None)
  /\ (map (fun k => List.length (rows_of (page k))) (seq 0 (S n))
      = [100; 100; 37]%nat ->
      List.length result = 237%nat /\ List.length requested = 3%nat)
  /\ (rows_of (page 0%nat) = [] ->
      n = 0%nat /\ result = []
      /\ requested = [listing_url user_id lang 0]).
Proof.
  intros lang page requested result Huser Hf Hfull Hshort.
  unfold get_publications. rewrite Huser. fold lang.
  split; [|split; [|split]].
  - intros fuel Hfuel.
    change 0 with (page_size * Z.of_nat 0).
    rewrite (fetch_pages_ends int_max_str_digits requests_get user_id lang n
               0%nat [] [] fuel); auto.
  - intros fuel Hfuel.
    change 0 with (page_size * Z.of_nat 0).
    apply (fetch_pages_needs_fuel int_max_str_digits requests_get user_id lang n
             0%nat [] [] fuel); auto.
    intros k Hk. apply Hf. simpl. lia.
  - intros H.
    assert (Hn : n = 2%nat).
    { apply (f_equal (@List.length nat)) in H.
      rewrite length_map, length_seq in H. simpl in H. lia. }
    subst n. cbn [seq map] in H. injection H as H0 H1 H2.
    subst result requested. cbn [seq flat_map map].
    rewrite !length_app, !length_map, H0, H1, H2. split; reflexivity.
  - intros H.
    assert (Hn : n = 0%nat).
    { destruct n as [|n]; [reflexivity|].
      specialize (Hfull 0%nat (Nat.lt_0_succ n)). rewrite H in Hfull.
      unfold page_size in Hfull. simpl in Hfull. lia. }
    subst n result requested. cbn [seq flat_map map]. rewrite H.
    repeat split.
Qed.

Lemma get_publications_paginates_witness :
  (exists requested result,
     get_publications 4300 Sample.three_pages 3 Sample.profile_url
     = Some (requested, PubList result)
     /\ List.length result = 237%nat /\ List.length requested = 3%nat)
  /\ get_publications 4300 Sample.three_pages 2 Sample.profile_url = None
  /\ get_publications 4300 Sample.no_pages 1 Sample.profile_url
     = Some ([listing_url "6ImtercAAAAJ" "de" 0], PubList []).
Proof.
  assert (H3 : forall k, (k <= 2)%nat ->
            fetched (page_at Sample.three_pages "6ImtercAAAAJ"
                       (url_lang Sample.profile_url) k) = true).
  { intros k Hk. destruct k as [|[|[|k]]]; [reflexivity ..|lia]. }
  assert (H3full : forall k, (k < 2)%nat ->
            page_size <= Z.of_nat (List.length (rows_of
              (page_at Sample.three_pages "6ImtercAAAAJ"
                 (url_lang Sample.profile_url) k)))).
  { intros k Hk. destruct k as [|[|k]]; [vm_compute; discriminate ..|lia]. }
  assert (H3short :
            Z.of_nat (List.length (rows_of
              (page_at Sample.three_pages "6ImtercAAAAJ"
                 (url_lang Sample.profile_url) 2))) < page_size).
  { vm_compute. reflexivity. }
  destruct (get_publications_paginates 4300 Sample.three_pages
              Sample.profile_url "6ImtercAAAAJ" 2 eq_refl H3 H3full H3short)
    as (Hends & Hfuel & Hsizes & _).
  assert (H0 : forall k, (k <= 0)%nat ->
            fetched (page_at Sample.no_pages "6ImtercAAAAJ"
                       (url_lang Sample.profile_url) k) = true).
  { intros k Hk. reflexivity. }
  assert (H0full : forall k, (k < 0)%nat ->
            page_size <= Z.of_nat (List.length (rows_of
              (page_at Sample.no_pages "6ImtercAAAAJ"
                 (url_lang Sample.profile_url) k)))).
  { intros k Hk. lia. }
  assert (H0short :
            Z.of_nat (List.length (rows_of
              (page_at Sample.no_pages "6ImtercAAAAJ"
                 (url_lang Sample.profile_url) 0))) < page_size).
  { vm_compute. reflexivity. }
  destruct (get_publications_paginates 4300 Sample.no_pages
              Sample.profile_url "6ImtercAAAAJ" 0 eq_refl H0 H0full H0short)
    as (Hends0 & _ & _ & Hempty).
  split; [|split].
  - eexists. eexists. split; [apply Hends; lia|].
    apply Hsizes. vm_compute. reflexivity.
  - apply Hfuel. lia.
  - rewrite (Hends0 1%nat) by lia.
    destruct (Hempty eq_refl) as (_ & Hres & Hreq).
    now rewrite Hres, Hreq.
Defined.

(* ================================================================= *)
(** ** Metrics extractor *)

(** C5, as the code has it: with the statistics table present,
    [get_h_index] collects the value cells of the whole page (inside
    the table or not); fewer than six give the error dictionary with
    the count found, otherwise the first six fill the six fields in the
    order citations (all, recent), h-index (all, recent), i10-index
    (all, recent); a page with four value cells gives the error. *)
Theorem get_h_index_metric_cells (requests_get : string -> response)
    (scholar_url : string) (soup : node) :
  requests_get scholar_url = HttpOk soup ->
  find (has_id "table" "gsc_rsb_st") soup <> None ->
  let metric_values := find_all (has_class "td" "gsc_rsb_std") soup in
  ((List.length metric_values < 6)%nat ->
     get_h_index requests_get scholar_url
     = MetricsError ("Expected 6 metric values, found "
                     ++ str_of_nat (List.length metric_values))%string)
  /\ ((6 <= List.length metric_values)%nat ->
        exists m,
          get_h_index requests_get scholar_url = Metrics m
          /\ map Some [ citations_all m; citations_recent m;
                        h_index_all m; h_index_recent m;
                        i10_index_all m; i10_index_recent m ]
             = map (fun i => option_map get_text_strip (nth_error metric_values i))
                   [0; 1; 2; 3; 4; 5]%nat)
  /\ (List.length metric_values = 4%nat ->
        get_h_index requests_get scholar_url
        = MetricsError "Expected 6 metric values, found 4").
Proof.
  intros Hget Htable metric_values.
  unfold get_h_index, parse_metrics. rewrite Hget.
  destruct (find (has_id "table" "gsc_rsb_st") soup) as [table|];
    [clear Htable|congruence].
  fold metric_values.
  split; [|split].
  - intros Hlen.
    destruct metric_values as [|v0 [|v1 [|v2 [|v3 [|v4 [|v5 rest]]]]]];
      try reflexivity.
    simpl in Hlen. lia.
  - intros Hlen.
    destruct metric_values as [|v0 [|v1 [|v2 [|v3 [|v4 [|v5 rest]]]]]];
      simpl in Hlen; try lia.
    eexists. split; reflexivity.
  - intros Hlen.
    destruct metric_values as [|v0 [|v1 [|v2 [|v3 [|v4 rest]]]]];
      try discriminate.
    reflexivity.
Qed.

Lemma get_h_index_metric_cells_witness :
  get_h_index (fun _ => HttpOk Sample.short_profile) Sample.profile_url
  = MetricsError "Expected 6 metric values, found 4"
  /\ exists m,
       get_h_index (fun _ => HttpOk Sample.split_profile) Sample.profile_url
       = Metrics m
       /\ h_index_all m = "6" /\ i10_index_recent m = "3".
Proof.
  split.
  - apply (get_h_index_metric_cells (fun _ => HttpOk Sample.short_profile)
             Sample.profile_url Sample.short_profile eq_refl).
    + vm_compute. discriminate.
    + reflexivity.
  - destruct (get_h_index_metric_cells (fun _ => HttpOk Sample.split_profile)
                Sample.profile_url Sample.split_profile eq_refl)
      as (_ & Hsix & _).
    + vm_compute. discriminate.
    + destruct Hsix as (m & Hm & Hfields).
      * vm_compute. lia.
      * exists m. split; [exact Hm|].
        vm_compute in Hfields.
        injection Hfields as _ _ Hh _ _ Hi.
        split; assumption.
Defined.

(** C5, as stated, fails: the statistics table of this page holds only
    four value cells, and [get_h_index] returns metrics all the same,
    because it counts the two cells outside the table too. *)
Lemma get_h_index_counts_cells_outside_table :
  let soup := Sample.split_profile in
  ~ (forall table,
       find (has_id "table" "gsc_rsb_st") soup = Some table ->
       (List.length (find_all (has_class "td" "gsc_rsb_std") table) < 6)%nat ->
       exists msg,
         get_h_index (fun _ => HttpOk soup) Sample.profile_url
         = MetricsError msg).
Proof.
  intros soup H.
  destruct (find (has_id "table" "gsc_rsb_st") soup) as [table|] eqn:E;
    [|discriminate].
  destruct (H table eq_refl) as (msg & Hmsg).
  - vm_compute in E. injection E as <-. vm_compute. lia.
  - vm_compute in Hmsg. discriminate.
Qed.

(* ================================================================= *)
(** ** Publication extractor: citation counts *)

Lemma all_chars_lstrip p sp s :
  PyStr.all_chars p s = true -> PyStr.all_chars p (PyStr.lstrip_with sp s) = true.
Proof.
  induction s as [|c s IH]; [reflexivity|].
  intros H. cbn [PyStr.lstrip_with]. destruct (sp c); [|exact H].
  apply IH. simpl in H. now apply andb_prop in H.
Qed.

Lemma all_chars_rstrip p sp s :
  PyStr.all_chars p s = true -> PyStr.all_chars p (PyStr.rstrip_with sp s) = true.
Proof.
  induction s as [|c s IH]; [reflexivity|].
  intros H. simpl in H. apply andb_prop in H. destruct H as [Hc Hs].
  cbn [PyStr.rstrip_with].
  destruct (sp c && PyStr.is_empty (PyStr.rstrip_with sp s)); [reflexivity|].
  simpl. now rewrite Hc, IH.
Qed.

Lemma digit_value_nonneg c : PyStr.isdecimal_char c = true -> 0 <= PyStr.digit_value c.
Proof.
  unfold PyStr.isdecimal_char, PyStr.between, PyStr.digit_value.
  intros H. apply andb_prop in H. destruct H as [H _].
  apply N.leb_le in H. lia.
Qed.

Lemma int_digits_nonneg s : forall acc n b v m,
  0 <= acc -> PyStr.int_digits s acc n b = Some (v, m) -> 0 <= v.
Proof.
  induction s as [|c s IH]; intros acc n b v m Hacc H; cbn [PyStr.int_digits] in H.
  - destruct b; [|discriminate]. now injection H as <- _.
  - destruct (PyStr.isdecimal_char c) eqn:Ec.
    + eapply IH; [|exact H]. pose proof (digit_value_nonneg c Ec). lia.
    + destruct (Ascii.eqb c "_" && b); [|discriminate].
      eapply IH; [|exact H]. exact Hacc.
Qed.

(** A literal without a minus sign never parses to a negative number. *)
Lemma int_nonneg max_digits s z :
  PyStr.no_minus_sign s = true -> PyStr.int max_digits s = Some z -> 0 <= z.
Proof.
  unfold PyStr.no_minus_sign, PyStr.int. intros Hs H.
  pose proof (all_chars_lstrip _ PyStr.int_isspace _
                (all_chars_rstrip _ PyStr.int_isspace _ Hs)) as Hs1.
  set (s1 := PyStr.lstrip_with _ _) in *.
  assert (Hbody : exists body,
            (let '(neg, body) :=
               match s1 with
               | String c s' =>
                   if Ascii.eqb c "-" then (true, s')
                   else if Ascii.eqb c "+" then (false, s') else (false, s1)
               | EmptyString => (false, s1)
               end in (neg, body)) = (false, body)).
  { destruct s1 as [|c s']; [now eexists|].
    simpl in Hs1. apply andb_prop in Hs1. destruct Hs1 as [Hc _].
    apply negb_true_iff in Hc. rewrite Hc.
    destruct (Ascii.eqb c "+"); now eexists. }
  destruct Hbody as (body & Hbody).
  destruct (match s1 with
            | String c s' =>
                if Ascii.eqb c "-" then (true, s')
                else if Ascii.eqb c "+" then (false, s') else (false, s1)
            | EmptyString => (false, s1)
            end) as [neg body'].
  injection Hbody as -> ->.
  destruct (PyStr.int_digits body 0 0%N false) as [[v n]|] eqn:E; [|discriminate].
  destruct (_ && _ && _)%bool; [discriminate|].
  injection H as <-. eapply int_digits_nonneg; [|exact E]. lia.
Qed.

(** What [extract_publication] stores under ['citations']. *)
Lemma extract_citations_cases max_digits row :
  let c := citations (extract_publication max_digits row) in
  match find (has_class "a" "gsc_a_ac") row with
  | None => c = 0
  | Some citations_elem =>
      let citations_text := get_text_strip citations_elem in
      match PyStr.int max_digits citations_text with
      | None => c = 0
      | Some n => c = n
      end
      /\ (PyStr.no_minus_sign citations_text = true -> 0 <= c)
  end.
Proof.
  cbn [citations extract_publication]. unfold extract_citations.
  destruct (find (has_class "a" "gsc_a_ac") row) as [e|]; [|reflexivity].
  cbn zeta. destruct (get_text_strip e) as [|ch t] eqn:Et.
  - split; [reflexivity|]. cbn [PyStr.is_empty]. lia.
  - cbn [PyStr.is_empty].
    destruct (PyStr.int max_digits (String ch t)) as [n|] eqn:En.
    + split; [reflexivity|]. intros Hm. eapply int_nonneg; eassumption.
    + split; [reflexivity|]. lia.
Qed.

Lemma fetch_pages_extracted max_digits requests_get user_id lang fuel :
  forall pubs start req requested result,
  Forall (fun pub => exists row, pub = extract_publication max_digits row) pubs ->
  fetch_pages max_digits requests_get fuel user_id lang pubs start req
  = Some (requested, PubList result) ->
  Forall (fun pub => exists row, pub = extract_publication max_digits row) result.
Proof.
  induction fuel as [|fuel IH]; intros pubs start req requested result Hpubs H;
    [discriminate|].
  cbn [fetch_pages] in H.
  destruct (requests_get _) as [soup|msg|msg]; [|discriminate..].
  assert (Hnew : Forall (fun pub => exists row, pub = extract_publication max_digits row)
                   (pubs ++ map (extract_publication max_digits) (pub_rows soup))).
  { apply Forall_app. split; [exact Hpubs|].
    apply Forall_map, Forall_forall. intros r _. now exists r. }
  destruct (pub_rows soup) as [|r rs].
  - injection H as _ <-. exact Hpubs.
  - destruct (_ <? _).
    + injection H as _ <-. exact Hnew.
    + eapply IH; [exact Hnew|exact H].
Qed.

(** C6, as the code has it: every publication [get_publications]
    returns was built from a row, and its citation count is 0 when the
    row has no citation link or the link's text is empty or not an
    integer literal, and otherwise the integer [int()] reads from that
    text; the count is non-negative whenever the text holds no minus
    sign. *)
Theorem extracted_citations_default_or_parsed (int_max_str_digits : N)
    (requests_get : string -> response) (fuel : nat) (scholar_url : string)
    (requested : list string) (publications : list publication) :
  get_publications int_max_str_digits requests_get fuel scholar_url
  = Some (requested, PubList publications) ->
  Forall (fun pub =>
            exists row,
              pub = extract_publication int_max_str_digits row
              /\ match find (has_class "a" "gsc_a_ac") row with
                 | None => citations pub = 0
                 | Some citations_elem =>
                     let citations_text := get_text_strip citations_elem in
                     match PyStr.int int_max_str_digits citations_text with
                     | None => citations pub = 0
                     | Some n => citations pub = n
                     end
                     /\ (PyStr.no_minus_sign citations_text = true ->
                         0 <= citations pub)
                 end)
         publications.
Proof.
  unfold get_publications. intros H.
  destruct (search_param "user=" scholar_url) as [user_id|]; [|discriminate].
  apply fetch_pages_extracted in H; [|constructor].
  eapply Forall_impl; [|exact H].
  intros pub (row & ->). exists row. split; [reflexivity|].
  apply extract_citations_cases.
Qed.

Lemma extracted_citations_default_or_parsed_witness :
  exists requested publications,
    get_publications 4300 Sample.three_pages 3 Sample.profile_url
    = Some (requested, PubList publications)
    /\ List.length publications = 237%nat
    /\ Forall (fun pub =>
                 exists row,
                   pub = extract_publication 4300 row
                   /\ match find (has_class "a" "gsc_a_ac") row with
                      | None => citations pub = 0
                      | Some citations_elem =>
                          let citations_text := get_text_strip citations_elem in
                          match PyStr.int 4300 citations_text with
                          | None => citations pub = 0
                          | Some n => citations pub = n
                          end
                          /\ (PyStr.no_minus_sign citations_text = true ->
                              0 <= citations pub)
                      end)
              publications.
Proof.
  eexists. eexists. split; [vm_compute; reflexivity|].
  split; [reflexivity|].
  eapply (extracted_citations_default_or_parsed 4300 Sample.three_pages 3
            Sample.profile_url).
  vm_compute. reflexivity.
Defined.

(** C6, as stated, fails: a row whose citation link reads "-3" yields
    a publication with a negative citation count. *)
Lemma extracted_citations_can_be_negative :
  exists requested pub,
    get_publications 4300 Sample.negative_count 1 Sample.profile_url
    = Some (requested, PubList [pub])
    /\ citations pub = -3
    /\ ~ 0 <= citations pub.
Proof.
  eexists. eexists. split; [vm_compute; reflexivity|].
  split; [reflexivity|]. simpl. lia.
Qed.

(* ================================================================= *)
(** ** Undercitation view: selection *)

Lemma undercited_loop_acc max_digits cy l : forall acc,
  undercited_loop max_digits cy l acc
  = obind (undercited_loop max_digits cy l []) (fun r => Ret (acc ++ r)).
Proof.
  induction l as [|p l IH]; intros acc; cbn [undercited_loop obind].
  - now rewrite app_nil_r.
  - destruct (undercited_entry max_digits cy p) as [r|e]; [|reflexivity].
    cbn [obind]. destruct r as [q|]; [|apply IH].
    rewrite IH, (IH ([] ++ [q])).
    destruct (undercited_loop max_digits cy l []) as [out|e]; [|reflexivity].
    cbn [obind]. now rewrite <- app_assoc.
Qed.

(** The test of lines 207..215 on one publication. *)
Lemma undercited_entry_selects max_digits cy pub pub' :
  undercited_entry max_digits cy pub = Ret (Some pub') <->
  PyStr.isdigit (year pub) = true
  /\ exists y,
       PyStr.int max_digits (year pub) = Some y
       /\ 0 < cy - y /\ citations pub < cy - y
       /\ pub' = set_age pub (cy - y).
Proof.
  unfold undercited_entry. split.
  - destruct (String.eqb (year pub) "N/A") eqn:Ena; [discriminate|].
    destruct (PyStr.isdigit (year pub)); [|discriminate].
    cbn [negb orb].
    destruct (PyStr.int max_digits (year pub)) as [y|]; [|discriminate].
    destruct (0 <? cy - y) eqn:Ea; [|discriminate].
    destruct (citations pub <? cy - y) eqn:Ec; [|discriminate].
    cbn [andb]. intros H. injection H as <-.
    split; [reflexivity|]. exists y.
    apply Z.ltb_lt in Ea, Ec. auto.
  - intros (Hd & y & Hy & Ha & Hc & ->).
    destruct (String.eqb (year pub) "N/A") eqn:Ena.
    + apply String.eqb_eq in Ena. rewrite Ena in Hd. discriminate.
    + rewrite Hd, Hy. cbn [negb orb].
      apply Z.ltb_lt in Ha, Hc. now rewrite Ha, Hc.
Qed.

(** On a list whose digit-only years are all accepted by [int()],
    [find_undercited_publications] returns, and returns exactly the
    publications that pass the three tests, each with its age. *)
Lemma find_undercited_publications_selects max_digits cy l :
  Forall (fun p => PyStr.isdigit (year p) = true ->
                   PyStr.int max_digits (year p) <> None) l ->
  exists undercited,
    find_undercited_publications max_digits (PubList l) cy = Ret undercited
    /\ forall pub',
         In pub' undercited <->
         exists pub y,
           In pub l /\ PyStr.isdigit (year pub) = true
           /\ PyStr.int max_digits (year pub) = Some y
           /\ 0 < cy - y /\ citations pub < cy - y
           /\ pub' = set_age pub (cy - y).
Proof.
  cbn [find_undercited_publications].
  induction 1 as [|p l Hp Hl IH].
  - exists []. split; [reflexivity|]. intros pub'. split; [intros []|].
    intros (pub & y & [] & _).
  - destruct IH as (out & Hout & Hin).
    cbn [undercited_loop].
    destruct (undercited_entry max_digits cy p) as [r|e] eqn:Ep.
    + cbn [obind]. rewrite undercited_loop_acc, Hout. cbn [obind].
      eexists. split; [reflexivity|]. intros pub'.
      rewrite in_app_iff, Hin.
      split.
      * intros [H|(pub & y & Hpub & H)].
        -- destruct r as [q|]; [|destruct H].
           destruct H as [<-|[]].
           apply undercited_entry_selects in Ep.
           destruct Ep as (Hd & y & H). exists p, y. simpl. tauto.
        -- exists pub, y. simpl. tauto.
      * intros (pub & y & [<-|Hpub] & Hd & Hy & Ha & Hc & ->).
        -- left.
           assert (E : undercited_entry max_digits cy p
                       = Ret (Some (set_age p (cy - y))))
             by (apply undercited_entry_selects; eauto 8).
           rewrite Ep in E. injection E as ->. now left.
        -- right. exists pub, y. tauto.
    + exfalso. unfold undercited_entry in Ep.
      destruct (String.eqb (year p) "N/A" || negb (PyStr.isdigit (year p)))
        eqn:Et; [discriminate|].
      apply orb_false_elim in Et. destruct Et as [_ Et].
      apply negb_false_iff in Et. specialize (Hp Et).
      destruct (PyStr.int max_digits (year p)); [|congruence].
      destruct (_ && _); discriminate.
Qed.

(** Whatever [find_undercited_publications] returns carries its age, so
    that [print_undercited_publications] can sort it. *)
Lemma undercited_loop_aged max_digits cy l : forall acc out,
  Forall (fun p => has_age p = true) acc ->
  undercited_loop max_digits cy l acc = Ret out ->
  Forall (fun p => has_age p = true) out.
Proof.
  induction l as [|p l IH]; intros acc out Hacc H; cbn [undercited_loop] in H.
  - now injection H as <-.
  - destruct (undercited_entry max_digits cy p) as [r|e] eqn:Ep; [|discriminate].
    cbn [obind] in H. eapply IH; [|exact H].
    destruct r as [q|]; [|exact Hacc].
    apply Forall_app. split; [exact Hacc|].
    apply undercited_entry_selects in Ep.
    destruct Ep as (_ & y & _ & _ & _ & ->). now repeat constructor.
Qed.

Lemma find_undercited_publications_aged max_digits publications cy out :
  find_undercited_publications max_digits publications cy = Ret out ->
  Forall (fun p => has_age p = true) out.
Proof.
  destruct publications as [l|msg]; cbn [find_undercited_publications].
  - apply undercited_loop_aged. constructor.
  - intros H. injection H as <-. constructor.
Qed.

(** C1 at a year made of a superscript digit: [isdigit] accepts the
    year, [int()] rejects it, and the call ends in [ValueError] although
    the first publication of the list passes all three tests.  The list
    is the one [get_publications] extracts from a page showing that
    year. *)
Theorem find_undercited_publications_superscript_year (int_max_str_digits : N) :
  let publications := [Sample.old_paper; Sample.odd_year_paper] in
  get_publications int_max_str_digits Sample.odd_year 1 Sample.profile_url
  = Some ([listing_url "6ImtercAAAAJ" "de" 0], PubList publications)
  /\ (PyStr.isdigit (year Sample.old_paper) = true
      /\ PyStr.int int_max_str_digits (year Sample.old_paper) = Some 2000
      /\ 0 < 2025 - 2000
      /\ citations Sample.old_paper < 2025 - 2000)
  /\ PyStr.isdigit (year Sample.odd_year_paper) = true
  /\ PyStr.int int_max_str_digits (year Sample.odd_year_paper) = None
  /\ find_undercited_publications int_max_str_digits (PubList publications) 2025
     = Raise ValueError.
Proof.
  repeat split.
Qed.

(* ================================================================= *)
(** ** Summary view *)

Lemma total_citations_acc (l : list publication) : forall acc,
  fold_left (fun a pub => a + citations pub) l acc
  = acc + fold_right Z.add 0 (map citations l).
Proof.
  induction l as [|p l IH]; intros acc; simpl; [lia|].
  rewrite IH. lia.
Qed.

Lemma total_citations_sum (l : list publication) :
  total_citations l = fold_right Z.add 0 (map citations l).
Proof. unfold total_citations. now rewrite total_citations_acc. Qed.

Lemma small_below_overflow : 10 ^ 300 <= 2 ^ 1024 - 2 ^ 970.
Proof. apply Z.leb_le. vm_compute. reflexivity. Qed.

Lemma total_citations_small (l : list publication) :
  Forall (fun pub => small_int (citations pub)) l ->
  Z.abs (total_citations l) <= (10 ^ 300 - 1) * Z.of_nat (List.length l).
Proof.
  rewrite total_citations_sum. unfold small_int.
  generalize (10 ^ 300). intros B.
  induction 1 as [|p l Hp Hl IH]; cbn [map fold_right List.length]; [lia|].
  rewrite Nat2Z.inj_succ. lia.
Qed.

(** A quotient by a positive number is in the range of a float when the
    dividend is below [10 ^ 300] times the divisor. *)
Lemma float_overflow_small (a n : Z) :
  0 < n -> Z.abs a <= (10 ^ 300 - 1) * n -> float_overflow a n = false.
Proof.
  intros Hn Ha. unfold float_overflow. apply Z.leb_gt.
  pose proof small_below_overflow as HB. revert Ha HB.
  generalize (10 ^ 300) (2 ^ 1024 - 2 ^ 970). intros B T Ha HB.
  rewrite (Z.abs_eq n) by lia. nia.
Qed.

Lemma avg_citations_small (pub : publication) (rest : list publication) :
  Forall (fun p => small_int (citations p)) (pub :: rest) ->
  avg_citations (pub :: rest)
  = Ret (FloatNum (float_quotient (total_citations (pub :: rest))
                     (Z.of_nat (List.length (pub :: rest))))).
Proof.
  intros H. apply total_citations_small in H.
  unfold avg_citations, py_truediv.
  destruct (Z.eqb_spec (Z.of_nat (List.length (pub :: rest))) 0) as [E|_];
    [discriminate E|].
  rewrite float_overflow_small; [reflexivity| |exact H].
  cbn [List.length]. lia.
Qed.

(** The division of line 293 has one fault only, and none for an empty
    list. *)
Lemma avg_citations_faults (l : list publication) (e : exn) :
  avg_citations l = Raise e -> e = OverflowError /\ l <> [].
Proof.
  destruct l as [|pub rest]; [discriminate|].
  unfold avg_citations, py_truediv.
  destruct (Z.eqb_spec (Z.of_nat (List.length (pub :: rest))) 0) as [E|_];
    [discriminate E|].
  destruct (float_overflow _ _); [|discriminate].
  cbn [obind]. intros H. injection H as <-. split; [reflexivity|discriminate].
Qed.

Lemma summary_statistics_cases (pub : publication)
    (rest undercited : list publication) :
  (exists s,
     summary_statistics (PubList (pub :: rest)) undercited = Ret (Some s)
     /\ avg_citations (pub :: rest) = Ret (summary_average s)
     /\ summary_publications s = List.length (pub :: rest)
     /\ summary_citations s = total_citations (pub :: rest)
     /\ summary_most_cited s = Some (citations pub))
  \/ (summary_statistics (PubList (pub :: rest)) undercited = Raise OverflowError
      /\ avg_citations (pub :: rest) = Raise OverflowError).
Proof.
  unfold summary_statistics. cbv beta iota.
  destruct (avg_citations (pub :: rest)) as [avg|e] eqn:E.
  - left. eexists. cbn [obind]. repeat split.
  - right. apply avg_citations_faults in E. destruct E as [-> _]. now split.
Qed.

(** C7: the "most cited" figure of the summary is the citation count of
    the first publication of the list the block is given, whatever the
    counts of the others; it can be smaller than another publication's
    count.  The block gives its figures for every non-empty list with
    citation counts of ordinary size; for any non-empty list it gives
    them unless the division of line 293 raises [OverflowError]. *)
Theorem summary_most_cited_is_first (pub : publication)
    (rest undercited : list publication) :
  (small_counts (PubList (pub :: rest)) ->
   exists s,
     summary_statistics (PubList (pub :: rest)) undercited = Ret (Some s)
     /\ summary_most_cited s = Some (citations pub))
  /\ ((exists s,
         summary_statistics (PubList (pub :: rest)) undercited = Ret (Some s)
         /\ summary_most_cited s = Some (citations pub))
      \/ summary_statistics (PubList (pub :: rest)) undercited
         = Raise OverflowError)
  /\ (exists s,
        summary_statistics
          (PubList [Sample.uncited_paper; Sample.cited_paper]) undercited
        = Ret (Some s)
        /\ summary_most_cited s = Some 0
        /\ In Sample.cited_paper [Sample.uncited_paper; Sample.cited_paper]
        /\ 0 < citations Sample.cited_paper).
Proof.
  split; [|split].
  - intros Hsmall. cbn [small_counts] in Hsmall.
    destruct (summary_statistics_cases pub rest undercited)
      as [(s & Hs & _ & _ & _ & Hm)|(_ & Hraise)]; [now exists s|].
    rewrite (avg_citations_small _ _ Hsmall) in Hraise. discriminate Hraise.
  - destruct (summary_statistics_cases pub rest undercited)
      as [(s & Hs & _ & _ & _ & Hm)|(Hraise & _)]; [left; now exists s|now right].
  - eexists. split; [reflexivity|]. repeat split. now right; left.
Qed.

Lemma summary_most_cited_is_first_witness :
  exists s,
    summary_statistics
      (PubList [Sample.uncited_paper; Sample.cited_paper; Sample.old_paper])
      [set_age Sample.old_paper 25]
    = Ret (Some s)
    /\ summary_most_cited s = Some 0.
Proof.
  apply (summary_most_cited_is_first Sample.uncited_paper
           [Sample.cited_paper; Sample.old_paper] [set_age Sample.old_paper 25]).
  repeat constructor.
Defined.




(* ================================================================= *)
(** ** Error results *)

(** C9, as the code has it: [print_publications_sorted] answers the
    error dictionary with the single line "Error: ..." and sorts
    nothing; on the undercitation side the error marker is tested by
    [find_undercited_publications], which returns the empty list, so
    that the printer writes its "none found" banner and ends
    normally. *)
Theorem error_result_rendering (int_max_str_digits : N) (msg : string)
    (current_year : Z) :
  print_publications_sorted (ErrorResult msg)
  = ([("Error: " ++ msg)%string], Ret tt)
  /\ find_undercited_publications int_max_str_digits (ErrorResult msg)
       current_year = Ret []
  /\ snd (undercitation_view int_max_str_digits (ErrorResult msg) current_year)
     = Ret tt
  /\ List.length
       (fst (undercitation_view int_max_str_digits (ErrorResult msg)
               current_year)) = 4%nat.
Proof. repeat split. Qed.

(** C9, as stated, fails: [print_undercited_publications] has no test
    for the error dictionary; handed one, it raises [TypeError] without
    printing, and the path through [find_undercited_publications]
    prints four lines, none of them a diagnostic. *)
Lemma print_undercited_publications_no_diagnostic :
  let failure := ErrorResult "Request failed: timed out" in
  print_undercited_publications failure = ([], Raise TypeError)
  /\ ~ (exists line, print_undercited_publications failure = ([line], Ret tt))
  /\ ~ (exists line, undercitation_view 4300 failure 2025 = ([line], Ret tt)).
Proof.
  split; [reflexivity|]. split; intros (line & H); discriminate H.
Qed.

(** C10: given the error dictionary, [find_undercited_publications]
    returns the empty list, and the undercitation view then prints what
    it prints for an empty list: the banner that ends in "No undercited
    publications found.", without the error text. *)
Theorem find_undercited_publications_error_is_empty (int_max_str_digits : N)
    (msg : string) (current_year : Z) :
  find_undercited_publications int_max_str_digits (ErrorResult msg) current_year
  = Ret []
  /\ undercitation_view int_max_str_digits (ErrorResult msg) current_year
     = print_undercited_publications (PubList [])
  /\ print_undercited_publications (PubList [])
     = ([ (nl ++ rule)%string; undercited_title; rule;
          (nl ++ "No undercited publications found.")%string ], Ret tt).
Proof. repeat split. Qed.

(* ================================================================= *)
(** * Further properties *)

(** ** Reading the profile URL *)

Lemma prefix_split (key s : string) :
  String.prefix key s = true -> exists rest, s = (key ++ rest)%string.
Proof.
  revert s. induction key as [|c key IH]; intros s H.
  - now exists s.
  - destruct s as [|d s]; [discriminate|]. cbn [String.prefix] in H.
    destruct (Ascii.ascii_dec c d) as [<-|]; [|discriminate].
    destruct (IH s H) as (rest & ->). now exists rest.
Qed.

Lemma prefix_append (key rest : string) :
  String.prefix key (key ++ rest) = true.
Proof.
  induction key as [|c key IH]; cbn.
  - now destruct rest.
  - now destruct (Ascii.ascii_dec c c).
Qed.

Lemma substring_whole (s : string) : String.substring 0 (String.length s) s = s.
Proof. induction s as [|c s IH]; cbn; [reflexivity|now rewrite IH]. Qed.

Lemma substring_after (key rest : string) :
  String.substring (String.length key)
    (String.length (key ++ rest) - String.length key) (key ++ rest) = rest.
Proof.
  induction key as [|c key IH]; cbn [String.append String.length].
  - rewrite Nat.sub_0_r. apply substring_whole.
  - cbn. exact IH.
Qed.

Lemma match_here_append (key rest : string) :
  match_here key (key ++ rest)
  = if PyStr.is_empty (until_amp rest) then None else Some (until_amp rest).
Proof.
  unfold match_here. now rewrite prefix_append, substring_after.
Qed.

(** [until_amp] cuts its argument before the first [&]. *)
Lemma until_amp_split (s : string) :
  PyStr.all_chars (fun c => negb (Ascii.eqb c "&")) (until_amp s) = true
  /\ exists post,
       s = (until_amp s ++ post)%string
       /\ (post = EmptyString \/ exists post', post = String "&" post').
Proof.
  induction s as [|c s (Hno & post & Hs & Hpost)]; cbn [until_amp].
  - split; [reflexivity|]. exists EmptyString. auto.
  - destruct (Ascii.eqb c "&") eqn:E.
    + apply Ascii.eqb_eq in E. subst c. split; [reflexivity|].
      exists (String "&" s). split; [reflexivity|]. right. now exists s.
    + split; [cbn; now rewrite E, Hno|].
      exists post. split; [cbn; now rewrite <- Hs|exact Hpost].
Qed.

Lemma until_amp_app (g post : string) :
  PyStr.all_chars (fun c => negb (Ascii.eqb c "&")) g = true ->
  post = EmptyString \/ (exists post', post = String "&" post') ->
  until_amp (g ++ post) = g.
Proof.
  intros Hg Hpost. induction g as [|c g IH]; cbn.
  - destruct Hpost as [->|(post' & ->)]; reflexivity.
  - cbn in Hg. apply andb_prop in Hg. destruct Hg as [Hc Hg].
    apply negb_true_iff in Hc. rewrite Hc. now rewrite IH.
Qed.

Lemma match_here_sound (key s g : string) :
  match_here key s = Some g ->
  g <> EmptyString
  /\ PyStr.all_chars (fun c => negb (Ascii.eqb c "&")) g = true
  /\ exists post,
       s = (key ++ g ++ post)%string
       /\ (post = EmptyString \/ exists post', post = String "&" post').
Proof.
  unfold match_here. intros E.
  destruct (String.prefix key s) eqn:Ep; [|discriminate].
  apply prefix_split in Ep. destruct Ep as (rest & ->).
  rewrite substring_after in E.
  destruct (until_amp_split rest) as (Hno & post & Hrest & Hpost).
  destruct (PyStr.is_empty (until_amp rest)) eqn:Ee; [discriminate|].
  injection E as <-.
  split; [intros H; now rewrite H in Ee|].
  split; [exact Hno|].
  exists post. split; [now rewrite <- Hrest|exact Hpost].
Qed.

Lemma search_param_sound (key s g : string) :
  search_param key s = Some g ->
  g <> EmptyString
  /\ PyStr.all_chars (fun c => negb (Ascii.eqb c "&")) g = true
  /\ exists pre post,
       s = (pre ++ key ++ g ++ post)%string
       /\ (post = EmptyString \/ exists post', post = String "&" post').
Proof.
  induction s as [|c s IH]; cbn [search_param];
    destruct (match_here key _) as [g'|] eqn:E; try discriminate.
  1, 2: intros H; injection H as ->;
    destruct (match_here_sound _ _ _ E) as (Hne & Hno & post & Hs & Hpost);
    (split; [exact Hne|]); (split; [exact Hno|]);
    exists EmptyString, post; (split; [exact Hs|exact Hpost]).
  intros H. destruct (IH H) as (Hne & Hno & pre & post & -> & Hpost).
  split; [exact Hne|]. split; [exact Hno|].
  exists (String c pre), post. split; [reflexivity|exact Hpost].
Qed.

Lemma search_param_none (key s : string) :
  (forall pre rest,
     s = (pre ++ key ++ rest)%string ->
     rest = EmptyString \/ exists rest', rest = String "&" rest') ->
  search_param key s = None.
Proof.
  induction s as [|c s IH]; intros H; cbn [search_param].
  - destruct (match_here key EmptyString) as [g|] eqn:E; [|reflexivity].
    exfalso. unfold match_here in E.
    destruct (String.prefix key _) eqn:Ep; [|discriminate].
    apply prefix_split in Ep. destruct Ep as (rest & Hs).
    rewrite Hs, substring_after in E.
    destruct (H EmptyString rest Hs) as [->|(rest' & ->)]; discriminate.
  - destruct (match_here key (String c s)) as [g|] eqn:E.
    + exfalso. unfold match_here in E.
      destruct (String.prefix key _) eqn:Ep; [|discriminate].
      apply prefix_split in Ep. destruct Ep as (rest & Hs).
      rewrite Hs, substring_after in E.
      destruct (H EmptyString rest Hs) as [->|(rest' & ->)]; discriminate.
    + apply IH. intros pre rest Hs. apply (H (String c pre) rest).
      cbn. now rewrite Hs.
Qed.

Lemma search_param_found (key rest : string) : forall pre,
  PyStr.is_empty (until_amp rest) = false ->
  search_param key (pre ++ key ++ rest) <> None.
Proof.
  induction pre as [|c pre IH]; intros Hrest.
  - cbn [String.append].
    assert (E : match_here key (key ++ rest) = Some (until_amp rest))
      by (rewrite match_here_append; now rewrite Hrest).
    destruct (key ++ rest)%string; cbn [search_param]; now rewrite E.
  - cbn [String.append search_param].
    destruct (match_here key _); [discriminate|]. now apply IH.
Qed.

(** X1: what [re.search(key + '([^&]+)', s)] hands to [group(1)], for the
    user id and the language alike: a non-empty text without [&] that
    follows an occurrence of the key in the URL and runs up to the next
    [&] or the end; the search fails exactly when every occurrence of
    the key is followed by [&] or by the end of the URL. *)
Theorem search_param_group (key s : string) :
  match search_param key s with
  | Some g =>
      g <> EmptyString
      /\ PyStr.all_chars (fun c => negb (Ascii.eqb c "&")) g = true
      /\ exists pre post,
           s = (pre ++ key ++ g ++ post)%string
           /\ (post = EmptyString \/ exists post', post = String "&" post')
  | None =>
      forall pre rest,
        s = (pre ++ key ++ rest)%string ->
        rest = EmptyString \/ exists rest', rest = String "&" rest'
  end.
Proof.
  destruct (search_param key s) as [g|] eqn:E.
  - now apply search_param_sound.
  - intros pre rest ->.
    destruct rest as [|c rest]; [now left|right].
    destruct (Ascii.eqb c "&") eqn:Ec.
    + apply Ascii.eqb_eq in Ec. subst c. now exists rest.
    + exfalso. revert E. apply search_param_found.
      cbn [until_amp]. now rewrite Ec.
Qed.

(** X2: the user id read from the profile URL can be read back from
    every listing URL built with it, whatever the language and the
    offset (of ordinary size). *)
Theorem listing_url_keeps_user (scholar_url user_id lang : string) (start : Z) :
  search_param "user=" scholar_url = Some user_id ->
  small_int start ->
  search_param "user=" (listing_url user_id lang start) = Some user_id.
Proof.
  intros H _. apply search_param_sound in H. destruct H as (Hne & Hno & _).
  unfold listing_url.
  change ("https://scholar.google.de/citations?user=" ++ user_id ++ "&hl="
          ++ lang ++ "&cstart=" ++ PyStr.str_of_int start ++ "&pagesize="
          ++ PyStr.str_of_int page_size)%string
    with ("https://scholar.google.de/citations?"
          ++ ("user=" ++ user_id ++ "&hl=" ++ lang ++ "&cstart="
              ++ PyStr.str_of_int start ++ "&pagesize="
              ++ PyStr.str_of_int page_size))%string.
  set (tail := ("&hl=" ++ lang ++ "&cstart=" ++ PyStr.str_of_int start
                ++ "&pagesize=" ++ PyStr.str_of_int page_size)%string).
  assert (Hrun : until_amp (user_id ++ tail) = user_id).
  { apply until_amp_app; [exact Hno|]. right. now eexists. }
  assert (Hhere : match_here "user=" ("user=" ++ user_id ++ tail) = Some user_id).
  { rewrite match_here_append, Hrun. now destruct user_id. }
  cbn [String.append] in Hhere |- *.
  cbn [search_param match_here String.prefix Ascii.ascii_dec].
  cbn. cbn in Hhere. now rewrite Hhere.
Qed.

Lemma listing_url_keeps_user_witness :
  search_param "user=" (listing_url "6ImtercAAAAJ" "de" 300)
  = Some "6ImtercAAAAJ".
Proof.
  apply (listing_url_keeps_user Sample.profile_url "6ImtercAAAAJ" "de" 300).
  - reflexivity.
  - vm_compute. reflexivity.
Defined.

(* ================================================================= *)
(** ** Pagination against any server *)

Section AnyServer.

Variable int_max_str_digits : N.
Variable requests_get : string -> response.
Variables user_id lang : string.

Local Abbreviation page := (page_at requests_get user_id lang).
Local Abbreviation url :=
  (fun k : nat => listing_url user_id lang (page_size * Z.of_nat k)).
Local Abbreviation rows :=
  (fun k : nat =>
     map (extract_publication int_max_str_digits) (rows_of (page k))).
Local Abbreviation loop := (fetch_pages int_max_str_digits requests_get).

(** A request that fails ends the loop with the error dictionary,
    whatever has been collected. *)
Lemma fetch_pages_failed fuel j pubs req e :
  page j = RequestException e ->
  loop (S fuel) user_id lang pubs (page_size * Z.of_nat j) req
  = Some (req ++ [url j], ErrorResult ("Request failed: " ++ e)%string).
Proof.
  unfold page_at. intros H. cbn [fetch_pages]. now rewrite H.
Qed.

(** So does any other exception raised while a page is fetched and
    parsed. *)
Lemma fetch_pages_raised fuel j pubs req e :
  page j = OtherException e ->
  loop (S fuel) user_id lang pubs (page_size * Z.of_nat j) req
  = Some (req ++ [url j], ErrorResult ("An error occurred: " ++ e)%string).
Proof.
  unfold page_at. intros H. cbn [fetch_pages]. now rewrite H.
Qed.

Lemma page_cases (k : nat) :
  (exists e, page k = RequestException e)
  \/ (exists e, page k = OtherException e)
  \/ (fetched (page k) = true
      /\ Z.of_nat (List.length (rows_of (page k))) < page_size)
  \/ (fetched (page k) = true
      /\ page_size <= Z.of_nat (List.length (rows_of (page k)))).
Proof.
  destruct (page k) as [soup|e|e] eqn:E.
  - right. right. cbn [fetched rows_of].
    destruct (Z.ltb_spec (Z.of_nat (List.length (pub_rows soup))) page_size);
      [left|right]; auto.
  - left. now exists e.
  - right. left. now exists e.
Qed.

(** Every run that ends went through [m + 1] requests: [m] full pages,
    then a short page, a failed request or another exception. *)
Lemma fetch_pages_log fuel : forall j pubs req requested r,
  loop fuel user_id lang pubs (page_size * Z.of_nat j) req = Some (requested, r) ->
  exists m,
    (m < fuel)%nat
    /\ requested = req ++ map url (seq j (S m))
    /\ (forall k, (k < m)%nat ->
          fetched (page (j + k)) = true
          /\ page_size <= Z.of_nat (List.length (rows_of (page (j + k)))))
    /\ match r with
       | PubList l =>
           fetched (page (j + m)) = true
           /\ Z.of_nat (List.length (rows_of (page (j + m)))) < page_size
           /\ l = pubs ++ flat_map rows (seq j (S m))
       | ErrorResult msg =>
           exists e,
             (page (j + m) = RequestException e
              /\ msg = ("Request failed: " ++ e)%string)
             \/ (page (j + m) = OtherException e
                 /\ msg = ("An error occurred: " ++ e)%string)
       end.
Proof.
  induction fuel as [|fuel IH]; intros j pubs req requested r H; [discriminate|].
  destruct (page_cases j) as [(e & He)|[(e & He)|[(Hf & Hs)|(Hf & Hs)]]].
  - rewrite (fetch_pages_failed _ _ _ _ _ He) in H. injection H as <- <-.
    exists 0%nat. rewrite Nat.add_0_r.
    split; [lia|]. split; [reflexivity|]. split; [intros k Hk; lia|].
    exists e. now left.
  - rewrite (fetch_pages_raised _ _ _ _ _ He) in H. injection H as <- <-.
    exists 0%nat. rewrite Nat.add_0_r.
    split; [lia|]. split; [reflexivity|]. split; [intros k Hk; lia|].
    exists e. now right.
  - rewrite (fetch_pages_short int_max_str_digits requests_get user_id lang
               fuel j pubs req Hf Hs) in H.
    injection H as <- <-. exists 0%nat. rewrite Nat.add_0_r.
    split; [lia|]. split; [reflexivity|]. split; [intros k Hk; lia|].
    cbn [seq flat_map]. now rewrite app_nil_r.
  - rewrite (fetch_pages_full int_max_str_digits requests_get user_id lang
               fuel j pubs req Hf Hs) in H.
    apply IH in H. destruct H as (m & Hm & Hreq & Hfull & Hr).
    exists (S m). split; [lia|]. split; [|split].
    + rewrite Hreq. cbn [seq map]. now rewrite <- app_assoc.
    + intros k Hk. destruct k as [|k].
      * now rewrite Nat.add_0_r.
      * replace (j + S k)%nat with (S j + k)%nat by lia. apply Hfull. lia.
    + replace (j + S m)%nat with (S j + m)%nat by lia.
      destruct r as [l|msg]; [|exact Hr].
      destruct Hr as (H1 & H2 & ->). split; [exact H1|]. split; [exact H2|].
      cbn [seq flat_map]. now rewrite <- app_assoc.
Qed.

Lemma length_full_pages (j m : nat) :
  (forall k, (k < m)%nat ->
     page_size <= Z.of_nat (List.length (rows_of (page (j + k))))) ->
  page_size * Z.of_nat m <= Z.of_nat (List.length (flat_map rows (seq j m))).
Proof.
  revert j. induction m as [|m IH]; intros j H; [cbn; unfold page_size; lia|].
  cbn [seq flat_map]. rewrite length_app, length_map, Nat2Z.inj_add.
  specialize (IH (S j)).
  assert (H0 := H 0%nat ltac:(lia)). rewrite Nat.add_0_r in H0.
  assert (page_size * Z.of_nat m
          <= Z.of_nat (List.length (flat_map rows (seq (S j) m)))).
  { apply IH. intros k Hk.
    replace (S j + k)%nat with (j + S k)%nat by lia. apply H. lia. }
  unfold page_size in *. lia.
Qed.

End AnyServer.

Lemma fetch_pages_fails_after (int_max_str_digits : N)
    (requests_get : string -> response) (user_id lang : string) (e : string)
    (n : nat) : forall j pubs req fuel,
  (forall k, (k < n)%nat ->
     fetched (page_at requests_get user_id lang (j + k)) = true
     /\ page_size <= Z.of_nat (List.length
                        (rows_of (page_at requests_get user_id lang (j + k))))) ->
  page_at requests_get user_id lang (j + n) = RequestException e ->
  (n < fuel)%nat ->
  fetch_pages int_max_str_digits requests_get fuel user_id lang pubs
    (page_size * Z.of_nat j) req
  = Some (req ++ map (fun k => listing_url user_id lang (page_size * Z.of_nat k))
                     (seq j (S n)),
          ErrorResult ("Request failed: " ++ e)%string).
Proof.
  induction n as [|n IH]; intros j pubs req fuel Hfull He Hfuel;
    destruct fuel as [|fuel]; try lia.
  - rewrite Nat.add_0_r in He. now rewrite (fetch_pages_failed _ _ _ _ _ _ _ _ _ He).
  - destruct (Hfull 0%nat ltac:(lia)) as (Hf & Hs). rewrite Nat.add_0_r in Hf, Hs.
    rewrite fetch_pages_full by assumption.
    rewrite (IH (S j)).
    + cbn [seq map]. now rewrite <- app_assoc.
    + intros k Hk. replace (S j + k)%nat with (j + S k)%nat by lia.
      apply Hfull. lia.
    + now replace (S j + n)%nat with (j + S n)%nat by lia.
    + lia.
Qed.

(** X3: whatever the server answers, a call of [get_publications] that
    returns (within a number of turns of ordinary size) with a user id
    in the URL has requested the listing URLs of
    the offsets 0, 100, 200, ... in this order, at least one and no
    more than the loop had turns, and every page before the last one
    was delivered with at least 100 rows. *)
Theorem get_publications_request_log (int_max_str_digits : N)
    (requests_get : string -> response) (fuel : nat)
    (scholar_url user_id : string) (requested : list string) (r : fetch_result) :
  search_param "user=" scholar_url = Some user_id ->
  small_int (page_size * Z.of_nat fuel) ->
  get_publications int_max_str_digits requests_get fuel scholar_url
  = Some (requested, r) ->
  exists m,
    (m < fuel)%nat
    /\ requested
       = map (fun k => listing_url user_id (url_lang scholar_url)
                         (page_size * Z.of_nat k))
             (seq 0 (S m))
    /\ forall k, (k < m)%nat ->
         fetched (page_at requests_get user_id (url_lang scholar_url) k) = true
         /\ page_size
            <= Z.of_nat (List.length
                 (rows_of (page_at requests_get user_id (url_lang scholar_url) k))).
Proof.
  unfold get_publications. intros -> _ H.
  change 0 with (page_size * Z.of_nat 0) in H.
  apply fetch_pages_log in H. destruct H as (m & Hm & Hreq & Hfull & _).
  exists m. split; [exact Hm|]. split; [exact Hreq|exact Hfull].
Qed.

Lemma get_publications_request_log_witness :
  exists m,
    (m < 5)%nat
    /\ [ listing_url "6ImtercAAAAJ" "de" 0;
         listing_url "6ImtercAAAAJ" "de" 100;
         listing_url "6ImtercAAAAJ" "de" 200 ]
       = map (fun k => listing_url "6ImtercAAAAJ" (url_lang Sample.profile_url)
                         (page_size * Z.of_nat k))
             (seq 0 (S m)).
Proof.
  destruct (get_publications_request_log 4300 Sample.three_pages 5
              Sample.profile_url "6ImtercAAAAJ"
              [ listing_url "6ImtercAAAAJ" "de" 0;
                listing_url "6ImtercAAAAJ" "de" 100;
                listing_url "6ImtercAAAAJ" "de" 200 ]
              (PubList (repeat (extract_publication 4300 Sample.some_row) 237)))
    as (m & Hm & Hreq & _).
  - reflexivity.
  - vm_compute. reflexivity.
  - vm_compute. reflexivity.
  - exists m. split; [exact Hm|exact Hreq].
Defined.

(** X4: within a number of turns of ordinary size, [get_publications]
    returns the error dictionary in three cases only: the URL holds no
    user id, and then nothing was requested; the last request it made
    failed, and then the message is "Request failed: " followed by the
    failure's text; or fetching and parsing the last page raised another
    exception, and then the message is "An error occurred: " followed
    by that exception's text. *)
Theorem get_publications_error_causes (int_max_str_digits : N)
    (requests_get : string -> response) (fuel : nat) (scholar_url : string)
    (requested : list string) (msg : string) :
  small_int (page_size * Z.of_nat fuel) ->
  get_publications int_max_str_digits requests_get fuel scholar_url
  = Some (requested, ErrorResult msg) ->
  (search_param "user=" scholar_url = None
   /\ requested = []
   /\ msg = "Could not extract user ID from URL")
  \/ (exists user_id m e,
        search_param "user=" scholar_url = Some user_id
        /\ List.length requested = S m
        /\ ((page_at requests_get user_id (url_lang scholar_url) m
             = RequestException e
             /\ msg = ("Request failed: " ++ e)%string)
            \/ (page_at requests_get user_id (url_lang scholar_url) m
                = OtherException e
                /\ msg = ("An error occurred: " ++ e)%string))).
Proof.
  unfold get_publications. intros _ H.
  destruct (search_param "user=" scholar_url) as [user_id|].
  - right. change 0 with (page_size * Z.of_nat 0) in H.
    apply fetch_pages_log in H. destruct H as (m & _ & Hreq & _ & e & He).
    exists user_id, m, e. split; [reflexivity|].
    split; [rewrite Hreq; cbn [app]; now rewrite length_map, length_seq|].
    exact He.
  - left. injection H as <- <-. repeat split.
Qed.

Lemma get_publications_error_causes_witness :
  search_param "user=" "https://scholar.google.de/citations?hl=de" = None
  /\ (exists m e,
        page_at Sample.two_pages_then_error "6ImtercAAAAJ"
          (url_lang Sample.profile_url) m = RequestException e
        /\ "Request failed: 503 Server Error" = ("Request failed: " ++ e)%string)
  /\ (exists m e,
        page_at Sample.bad_markup "6ImtercAAAAJ"
          (url_lang Sample.profile_url) m = OtherException e
        /\ "An error occurred: bad markup" = ("An error occurred: " ++ e)%string).
Proof.
  split; [|split].
  - destruct (get_publications_error_causes 4300 Sample.three_pages 0
                "https://scholar.google.de/citations?hl=de" []
                "Could not extract user ID from URL" eq_refl eq_refl)
      as [(H & _)|(user_id & m & e & H & _)]; [exact H|discriminate H].
  - destruct (get_publications_error_causes 4300 Sample.two_pages_then_error 3
                Sample.profile_url
                [ listing_url "6ImtercAAAAJ" "de" 0;
                  listing_url "6ImtercAAAAJ" "de" 100;
                  listing_url "6ImtercAAAAJ" "de" 200 ]
                "Request failed: 503 Server Error")
      as [(H & _)|(user_id & m & e & Hu & _ & [(He & Hmsg)|(He & Hmsg)])].
    + vm_compute. reflexivity.
    + vm_compute. reflexivity.
    + discriminate H.
    + injection Hu as <-. now exists m, e.
    + discriminate Hmsg.
  - destruct (get_publications_error_causes 4300 Sample.bad_markup 3
                Sample.profile_url
                [ listing_url "6ImtercAAAAJ" "de" 0 ]
                "An error occurred: bad markup")
      as [(H & _)|(user_id & m & e & Hu & _ & [(He & Hmsg)|(He & Hmsg)])].
    + vm_compute. reflexivity.
    + vm_compute. reflexivity.
    + discriminate H.
    + discriminate Hmsg.
    + injection Hu as <-. now exists m, e.
Defined.

(** X5: when [get_publications] returns a list after [m] requests, the
    list holds the publications of the [m] pages in order; the last
    page had fewer than 100 rows and each page before it at least 100,
    so that the list has at least [100 (m - 1)] entries. *)
Theorem get_publications_result_size (int_max_str_digits : N)
    (requests_get : string -> response) (fuel : nat) (scholar_url : string)
    (requested : list string) (publications : list publication) :
  small_int (page_size * Z.of_nat fuel) ->
  get_publications int_max_str_digits requests_get fuel scholar_url
  = Some (requested, PubList publications) ->
  exists user_id m,
    search_param "user=" scholar_url = Some user_id
    /\ List.length requested = S m
    /\ publications
       = flat_map (fun k =>
                     map (extract_publication int_max_str_digits)
                         (rows_of (page_at requests_get user_id
                                     (url_lang scholar_url) k)))
                  (seq 0 (S m))
    /\ Z.of_nat (List.length
                   (rows_of (page_at requests_get user_id
                               (url_lang scholar_url) m))) < page_size
    /\ page_size * Z.of_nat m <= Z.of_nat (List.length publications).
Proof.
  unfold get_publications. intros _ H.
  destruct (search_param "user=" scholar_url) as [user_id|]; [|discriminate].
  change 0 with (page_size * Z.of_nat 0) in H.
  apply fetch_pages_log in H.
  destruct H as (m & _ & Hreq & Hfull & _ & Hshort & Hl).
  exists user_id, m. split; [reflexivity|].
  split; [rewrite Hreq; cbn [app]; now rewrite length_map, length_seq|].
  split; [exact Hl|]. split; [exact Hshort|].
  cbn [app] in Hl. rewrite Hl, seq_S, flat_map_app, length_app.
  pose proof (length_full_pages int_max_str_digits requests_get user_id
                (url_lang scholar_url) 0 m) as Hlen.
  cbn [Nat.add] in Hlen.
  assert (page_size * Z.of_nat m
          <= Z.of_nat (List.length
               (flat_map (fun k =>
                            map (extract_publication int_max_str_digits)
                                (rows_of (page_at requests_get user_id
                                            (url_lang scholar_url) k)))
                         (seq 0 m)))).
  { apply Hlen. intros k Hk. now apply Hfull. }
  lia.
Qed.

Lemma get_publications_result_size_witness :
  exists user_id m,
    search_param "user=" Sample.profile_url = Some user_id
    /\ List.length [ listing_url "6ImtercAAAAJ" "de" 0;
                     listing_url "6ImtercAAAAJ" "de" 100;
                     listing_url "6ImtercAAAAJ" "de" 200 ] = S m
    /\ page_size * Z.of_nat m
       <= Z.of_nat (List.length
            (repeat (extract_publication 4300 Sample.some_row) 237)).
Proof.
  destruct (get_publications_result_size 4300 Sample.three_pages 3
              Sample.profile_url
              [ listing_url "6ImtercAAAAJ" "de" 0;
                listing_url "6ImtercAAAAJ" "de" 100;
                listing_url "6ImtercAAAAJ" "de" 200 ]
              (repeat (extract_publication 4300 Sample.some_row) 237))
    as (user_id & m & Hu & Hm & _ & _ & Hsize).
  - vm_compute. reflexivity.
  - vm_compute. reflexivity.
  - exists user_id, m. split; [exact Hu|]. split; [exact Hm|exact Hsize].
Defined.

(** X6: a request that fails after [n] full pages makes
    [get_publications] return the error dictionary: the publications of
    the pages already fetched are not returned. *)
Theorem get_publications_failure_discards (int_max_str_digits : N)
    (requests_get : string -> response) (scholar_url user_id e : string)
    (n fuel : nat) :
  search_param "user=" scholar_url = Some user_id ->
  (forall k, (k < n)%nat ->
     fetched (page_at requests_get user_id (url_lang scholar_url) k) = true
     /\ page_size
        <= Z.of_nat (List.length
             (rows_of (page_at requests_get user_id (url_lang scholar_url) k)))) ->
  page_at requests_get user_id (url_lang scholar_url) n = RequestException e ->
  (n < fuel)%nat ->
  small_int (page_size * Z.of_nat n) ->
  get_publications int_max_str_digits requests_get fuel scholar_url
  = Some (map (fun k => listing_url user_id (url_lang scholar_url)
                          (page_size * Z.of_nat k))
              (seq 0 (S n)),
          ErrorResult ("Request failed: " ++ e)%string).
Proof.
  intros Hu Hfull He Hfuel _. unfold get_publications. rewrite Hu.
  change 0 with (page_size * Z.of_nat 0).
  now rewrite (fetch_pages_fails_after int_max_str_digits requests_get user_id
                 (url_lang scholar_url) e n 0%nat [] [] fuel).
Qed.

Lemma get_publications_failure_discards_witness :
  get_publications 4300 Sample.two_pages_then_error 7 Sample.profile_url
  = Some ([ listing_url "6ImtercAAAAJ" "de" 0;
            listing_url "6ImtercAAAAJ" "de" 100;
            listing_url "6ImtercAAAAJ" "de" 200 ],
          ErrorResult "Request failed: 503 Server Error").
Proof.
  apply (get_publications_failure_discards 4300 Sample.two_pages_then_error
           Sample.profile_url "6ImtercAAAAJ" "503 Server Error" 2 7).
  - reflexivity.
  - intros k Hk. destruct k as [|[|k]]; [| |lia];
      (split; [reflexivity|vm_compute; discriminate]).
  - reflexivity.
  - lia.
  - vm_compute. reflexivity.
Defined.

(** X7: against a server that answers every request with a page of at
    least 100 rows the loop of [get_publications] does not end: no
    number of turns of ordinary size is enough for it to return. *)
Theorem get_publications_endless (int_max_str_digits : N)
    (requests_get : string -> response) (scholar_url user_id : string) :
  search_param "user=" scholar_url = Some user_id ->
  (forall k,
     fetched (page_at requests_get user_id (url_lang scholar_url) k) = true
     /\ page_size
        <= Z.of_nat (List.length
             (rows_of (page_at requests_get user_id (url_lang scholar_url) k)))) ->
  forall fuel,
    small_int (page_size * Z.of_nat fuel) ->
    get_publications int_max_str_digits requests_get fuel scholar_url = None.
Proof.
  intros Hu Hfull fuel _. unfold get_publications. rewrite Hu.
  change 0 with (page_size * Z.of_nat 0).
  apply (fetch_pages_needs_fuel int_max_str_digits requests_get user_id
           (url_lang scholar_url) fuel 0%nat [] [] fuel);
    [intros k _; apply Hfull|intros k _; apply Hfull|lia].
Qed.

Lemma get_publications_endless_witness :
  get_publications 4300 Sample.endless 1 Sample.profile_url = None
  /\ get_publications 4300 Sample.endless 40 Sample.profile_url = None.
Proof.
  assert (H : forall k,
            fetched (page_at Sample.endless "6ImtercAAAAJ"
                       (url_lang Sample.profile_url) k) = true
            /\ page_size
               <= Z.of_nat (List.length
                    (rows_of (page_at Sample.endless "6ImtercAAAAJ"
                                (url_lang Sample.profile_url) k)))).
  { intros k. unfold page_at, Sample.endless. split; [reflexivity|].
    vm_compute. discriminate. }
  split; apply (get_publications_endless 4300 Sample.endless Sample.profile_url
                  "6ImtercAAAAJ" eq_refl H); vm_compute; reflexivity.
Defined.

(* ================================================================= *)
(** ** Extracted fields *)

Section Stripping.

Variable sp : ascii -> bool.

Lemma lstrip_with_head (s : string) :
  match PyStr.lstrip_with sp s with
  | EmptyString => True
  | String c _ => sp c = false
  end.
Proof.
  induction s as [|c s IH]; cbn [PyStr.lstrip_with]; [exact I|].
  destruct (sp c) eqn:E; [exact IH|exact E].
Qed.

Lemma lstrip_with_fixed (s : string) :
  match s with
  | EmptyString => True
  | String c _ => sp c = false
  end ->
  PyStr.lstrip_with sp s = s.
Proof. destruct s as [|c s]; cbn; [reflexivity|now intros ->]. Qed.

Lemma rstrip_with_idem (s : string) :
  PyStr.rstrip_with sp (PyStr.rstrip_with sp s) = PyStr.rstrip_with sp s.
Proof.
  induction s as [|c s IH]; [reflexivity|]. cbn [PyStr.rstrip_with].
  destruct (sp c && PyStr.is_empty (PyStr.rstrip_with sp s)) eqn:E;
    [reflexivity|].
  cbn [PyStr.rstrip_with]. now rewrite IH, E.
Qed.

Lemma rstrip_with_lstrip (s : string) :
  PyStr.rstrip_with sp s = s ->
  PyStr.rstrip_with sp (PyStr.lstrip_with sp s) = PyStr.lstrip_with sp s.
Proof.
  induction s as [|c s IH]; [reflexivity|]. intros H.
  cbn [PyStr.lstrip_with]. destruct (sp c) eqn:E; [|exact H].
  apply IH. cbn [PyStr.rstrip_with] in H. rewrite E in H. cbn [andb] in H.
  destruct (PyStr.is_empty (PyStr.rstrip_with sp s)); [discriminate|].
  now injection H.
Qed.

(** Stripping on the right looks at the end only. *)
Lemma rstrip_with_app (s t : string) :
  PyStr.rstrip_with sp t = t -> t <> EmptyString ->
  PyStr.rstrip_with sp (s ++ t) = (s ++ t)%string.
Proof.
  intros Ht Hne. induction s as [|c s IH]; [exact Ht|].
  cbn [String.append PyStr.rstrip_with]. rewrite IH.
  destruct (s ++ t)%string eqn:E.
  - destruct s; [cbn in E; congruence|discriminate].
  - cbn [PyStr.is_empty]. now rewrite andb_false_r.
Qed.

Lemma lstrip_with_app (s t : string) :
  PyStr.lstrip_with sp s = s -> s <> EmptyString ->
  PyStr.lstrip_with sp (s ++ t) = (s ++ t)%string.
Proof.
  destruct s as [|c s]; [congruence|]. intros H _.
  cbn [String.append PyStr.lstrip_with] in *.
  destruct (sp c) eqn:E; [|reflexivity].
  exfalso. pose proof (lstrip_with_head s) as Hh. rewrite H in Hh.
  congruence.
Qed.

(** A string is stripped when stripping it on either side changes
    nothing; the result of stripping on the right, then on the left,
    is. *)
Lemma stripped_strip (s : string) :
  let t := PyStr.lstrip_with sp (PyStr.rstrip_with sp s) in
  PyStr.lstrip_with sp t = t /\ PyStr.rstrip_with sp t = t.
Proof.
  split.
  - apply lstrip_with_fixed, lstrip_with_head.
  - apply rstrip_with_lstrip, rstrip_with_idem.
Qed.

Lemma stripped_concat (l : list string) :
  Forall (fun s => (PyStr.lstrip_with sp s = s /\ PyStr.rstrip_with sp s = s)
                   /\ s <> EmptyString) l ->
  PyStr.lstrip_with sp (String.concat "" l) = String.concat "" l
  /\ PyStr.rstrip_with sp (String.concat "" l) = String.concat "" l.
Proof.
  induction 1 as [|s l (Hs & Hne) Hl IH]; [now split|].
  cbn [String.concat]. destruct l as [|t l]; [exact Hs|].
  cbn [String.append].
  assert (Hne' : String.concat "" (t :: l) <> EmptyString).
  { inversion Hl as [|? ? (_ & Ht) _]; subst.
    cbn [String.concat]. destruct l; [exact Ht|].
    destruct t; [congruence|discriminate]. }
  destruct Hs as [Hls Hrs]. destruct IH as [_ IHr]. split.
  - now apply lstrip_with_app.
  - now apply rstrip_with_app.
Qed.

End Stripping.

Lemma strip_get_text_strip (n : node) :
  PyStr.strip (get_text_strip n) = get_text_strip n.
Proof.
  unfold get_text_strip.
  destruct (stripped_concat PyStr.isspace
              (filter (fun s => negb (PyStr.is_empty s))
                 (map PyStr.strip (flat_map text_of (descendants n)))))
    as (Hl & Hr).
  - apply Forall_forall. intros s Hs. apply filter_In in Hs.
    destruct Hs as (Hs & Hne). apply in_map_iff in Hs.
    destruct Hs as (t & <- & _). split; [apply stripped_strip|].
    intros E. now rewrite E in Hne.
  - unfold PyStr.strip at 1. now rewrite Hr, Hl.
Qed.

Lemma strip_text_or (e : option node) :
  PyStr.strip (text_or "N/A" e) = text_or "N/A" e.
Proof. destruct e; [apply strip_get_text_strip|reflexivity]. Qed.

(** The fields of the dictionary built for a row. *)
Lemma extract_publication_fields (max_digits : N) (row : node) :
  let pub := extract_publication max_digits row in
  age pub = None
  /\ year pub <> EmptyString
  /\ Forall (fun field => PyStr.strip field = field)
       [title pub; authors pub; venue pub; year pub].
Proof.
  cbn [extract_publication age year title authors venue].
  split; [reflexivity|]. split.
  - destruct (find (has_class "span" "gsc_a_h") row) as [e|]; [|discriminate].
    cbn zeta. destruct (get_text_strip e); cbn; discriminate.
  - repeat constructor.
    + apply strip_text_or.
    + apply strip_text_or.
    + destruct (find_all (has_class "div" "gs_gray") row) as [|g [|v rest]];
        try reflexivity. apply strip_get_text_strip.
    + destruct (find (has_class "span" "gsc_a_h") row) as [e|]; [|reflexivity].
      cbn zeta. destruct (get_text_strip e) eqn:E; [reflexivity|].
      cbn [PyStr.is_empty]. rewrite <- E. apply strip_get_text_strip.
Qed.

(** X8: every publication [get_publications] returns carries no age
    yet, has a year that is never the empty text ("N/A" stands in for
    it), and has a title, authors, venue and year without white space at
    either end. *)
Theorem get_publications_fields (int_max_str_digits : N)
    (requests_get : string -> response) (fuel : nat) (scholar_url : string)
    (requested : list string) (publications : list publication) :
  get_publications int_max_str_digits requests_get fuel scholar_url
  = Some (requested, PubList publications) ->
  Forall (fun pub =>
            age pub = None
            /\ year pub <> EmptyString
            /\ Forall (fun field => PyStr.strip field = field)
                 [title pub; authors pub; venue pub; year pub])
         publications.
Proof.
  unfold get_publications. intros H.
  destruct (search_param "user=" scholar_url) as [user_id|]; [|discriminate].
  apply fetch_pages_extracted in H; [|constructor].
  eapply Forall_impl; [|exact H].
  intros pub (row & ->). apply extract_publication_fields.
Qed.

Lemma get_publications_fields_witness :
  Forall (fun pub =>
            age pub = None
            /\ year pub <> EmptyString
            /\ Forall (fun field => PyStr.strip field = field)
                 [title pub; authors pub; venue pub; year pub])
         (repeat (extract_publication 4300 Sample.some_row) 237).
Proof.
  eapply (get_publications_fields 4300 Sample.three_pages 3 Sample.profile_url).
  vm_compute. reflexivity.
Defined.

(* ================================================================= *)
(** ** Metrics extractor: outcomes *)

(** X9: [get_h_index] returns metrics exactly when the request succeeds
    and its answer is parsed, the page has the statistics table and at
    least six value cells; the six values and the name are then texts
    without white space at either end, and the name is present exactly
    when the page has the name element.  A failed request gives the
    error "Request failed: ..." and any other exception the error "An
    error occurred: ...". *)
Theorem get_h_index_success (requests_get : string -> response)
    (scholar_url : string) :
  ((exists m, get_h_index requests_get scholar_url = Metrics m) <->
   (exists soup,
      requests_get scholar_url = HttpOk soup
      /\ find (has_id "table" "gsc_rsb_st") soup <> None
      /\ (6 <= List.length (find_all (has_class "td" "gsc_rsb_std") soup))%nat))
  /\ (forall m,
        get_h_index requests_get scholar_url = Metrics m ->
        Forall (fun field => PyStr.strip field = field)
          [ citations_all m; citations_recent m; h_index_all m;
            h_index_recent m; i10_index_all m; i10_index_recent m ]
        /\ (forall n, name m = Some n -> PyStr.strip n = n)
        /\ exists soup,
             requests_get scholar_url = HttpOk soup
             /\ (name m = None <->
                 find (has_id "div" "gsc_prf_in") soup = None))
  /\ (forall e,
        (requests_get scholar_url = RequestException e ->
         get_h_index requests_get scholar_url
         = MetricsError ("Request failed: " ++ e)%string)
        /\ (requests_get scholar_url = OtherException e ->
            get_h_index requests_get scholar_url
            = MetricsError ("An error occurred: " ++ e)%string)).
Proof.
  rewrite <- and_assoc. split;
    [|intros e; unfold get_h_index; split; intros ->; reflexivity].
  unfold get_h_index, parse_metrics.
  destruct (requests_get scholar_url) as [soup|e|e].
  - destruct (find (has_id "table" "gsc_rsb_st") soup) as [table|] eqn:Et.
    + destruct (find_all (has_class "td" "gsc_rsb_std") soup)
        as [|v0 [|v1 [|v2 [|v3 [|v4 [|v5 rest]]]]]] eqn:E.
      1-6: split;
        [split; [intros (m & H); discriminate H
                |intros (soup' & H & _ & Hlen); injection H as <-;
                 rewrite E in Hlen; cbn in Hlen; lia]
        |intros m H; discriminate H].
      split.
      * split; [intros _|intros _; now eexists].
        exists soup. rewrite E, Et. split; [reflexivity|].
        split; [discriminate|cbn; lia].
      * intros m H. injection H as <-.
        cbn [citations_all citations_recent h_index_all h_index_recent
             i10_index_all i10_index_recent name].
        split; [repeat constructor; apply strip_get_text_strip|].
        split.
        -- intros n Hn.
           destruct (find (has_id "div" "gsc_prf_in") soup); [|discriminate].
           cbn in Hn. injection Hn as <-. apply strip_get_text_strip.
        -- exists soup. split; [reflexivity|].
           destruct (find (has_id "div" "gsc_prf_in") soup); cbn;
             split; congruence.
    + split; [|intros m H; discriminate H].
      split; [intros (m & H); discriminate H|].
      intros (soup' & H & Ht & _). injection H as <-. congruence.
  - split; [|intros m H; discriminate H].
    split; [intros (m & H); discriminate H|].
    intros (soup' & H & _). discriminate H.
  - split; [|intros m H; discriminate H].
    split; [intros (m & H); discriminate H|].
    intros (soup' & H & _). discriminate H.
Qed.

Lemma get_h_index_success_witness :
  exists m,
    get_h_index (fun _ => HttpOk Sample.split_profile) Sample.profile_url
    = Metrics m
    /\ name m = Some "A. Author"
    /\ PyStr.strip (citations_all m) = citations_all m.
Proof.
  destruct (get_h_index_success (fun _ => HttpOk Sample.split_profile)
              Sample.profile_url) as (Hiff & Hfields & _).
  destruct (proj2 Hiff) as (m & Hm).
  - exists Sample.split_profile. split; [reflexivity|].
    split; [vm_compute; discriminate|vm_compute; lia].
  - exists m. split; [exact Hm|].
    destruct (Hfields m Hm) as (Hstrip & _ & _).
    apply Forall_inv in Hstrip. split; [|exact Hstrip].
    vm_compute in Hm. injection Hm as <-. reflexivity.
Defined.

(* ================================================================= *)
(** ** Undercitation view: further properties *)

Lemma keys_of_unaged (l : list publication) :
  Exists (fun p => has_age p = false) l ->
  omap (fun x => obind (deficit x) (fun k => Ret (k, x))) l
  = Raise (KeyError "age").
Proof.
  induction l as [|p l IH]; intros H; [inversion H|].
  cbn [omap]. unfold deficit at 1, get_age.
  destruct (age p) as [a|] eqn:Ea; [|reflexivity].
  cbn [obind]. rewrite IH; [reflexivity|].
  inversion H as [? ? Hp|? ? Hl]; subst; [|exact Hl].
  unfold has_age in Hp. now rewrite Ea in Hp.
Qed.

(** X10: handed a list in which some publication has no ['age'] key,
    [print_undercited_publications] raises [KeyError] for that key
    while computing the sort keys, before it prints anything. *)
Theorem print_undercited_publications_needs_age (undercited_pubs : list publication) :
  Exists (fun p => has_age p = false) undercited_pubs ->
  print_undercited_publications (PubList undercited_pubs)
  = ([], Raise (KeyError "age")).
Proof.
  intros H. destruct undercited_pubs as [|p l]; [inversion H|].
  unfold print_undercited_publications, py_sorted_raising.
  now rewrite (keys_of_unaged _ H).
Qed.

Lemma print_undercited_publications_needs_age_witness :
  print_undercited_publications
    (PubList [set_age Sample.old_paper 25; Sample.cited_paper])
  = ([], Raise (KeyError "age")).
Proof.
  apply print_undercited_publications_needs_age.
  apply Exists_cons_tl, Exists_cons_hd. reflexivity.
Defined.

Lemma undercited_entry_raises max_digits cy pub e :
  undercited_entry max_digits cy pub = Raise e -> e = ValueError.
Proof.
  unfold undercited_entry.
  destruct (_ || _); [discriminate|].
  destruct (PyStr.int max_digits (year pub)).
  - destruct (_ && _); discriminate.
  - intros H. now injection H.
Qed.

Lemma undercited_loop_raises max_digits cy l : forall acc e,
  undercited_loop max_digits cy l acc = Raise e -> e = ValueError.
Proof.
  induction l as [|p l IH]; intros acc e H; cbn [undercited_loop] in H;
    [discriminate|].
  destruct (undercited_entry max_digits cy p) as [r|e'] eqn:Ep.
  - cbn [obind] in H. eapply IH, H.
  - cbn [obind] in H. injection H as <-.
    eapply undercited_entry_raises, Ep.
Qed.

Lemma length_flat_map_const {A B} (f : A -> list B) (n : nat) (l : list A) :
  Forall (fun x => List.length (f x) = n) l ->
  List.length (flat_map f l) = (n * List.length l)%nat.
Proof.
  induction 1 as [|x l Hx Hl IH]; cbn [flat_map List.length]; [lia|].
  rewrite length_app, Hx, IH. lia.
Qed.

Lemma length_enumerate {A} (l : list A) : forall start,
  List.length (enumerate start l) = List.length l.
Proof.
  induction l as [|x l IH]; intros start; cbn; [reflexivity|now rewrite IH].
Qed.

Lemma print_undercited_entry_lines (i : Z) (pub : publication) :
  has_age pub = true ->
  List.length (fst (print_undercited_entry (i, pub))) = 6%nat.
Proof.
  intros H. unfold print_undercited_entry.
  rewrite (deficit_of_aged pub H).
  unfold get_age, has_age in *. destruct (age pub); [reflexivity|discriminate].
Qed.

Lemma print_undercited_publications_aged (l : list publication) :
  Forall (fun p => has_age p = true) l ->
  snd (print_undercited_publications (PubList l)) = Ret tt
  /\ List.length (fst (print_undercited_publications (PubList l)))
     = match l with
       | [] => 4%nat
       | _ :: _ => (3 + 6 * List.length l)%nat
       end.
Proof.
  intros Haged. destruct l as [|p l]; [split; reflexivity|].
  unfold print_undercited_publications.
  rewrite (py_sorted_raising_aged _ Haged).
  set (sorted := py_sorted deficit_value true (p :: l)).
  assert (Hperm : Permutation sorted (p :: l)) by apply py_sorted_desc_perm.
  assert (Hs : Forall (fun e => snd (print_undercited_entry e) = Ret tt
                                /\ List.length (fst (print_undercited_entry e))
                                   = 6%nat)
                 (enumerate 1 sorted)).
  { apply Forall_forall. intros [i q] Hq. apply in_enumerate in Hq.
    assert (Hage : has_age q = true).
    { apply (proj1 (Forall_forall _ _) Haged).
      eapply Permutation_in; [exact Hperm|exact Hq]. }
    split; [now apply print_undercited_entry_aged
           |now apply print_undercited_entry_lines]. }
  unfold io_bind, io_lift, print.
  rewrite io_for_ret by (eapply Forall_impl; [|exact Hs]; now intros e [? _]).
  cbn [fst snd app List.length]. split; [reflexivity|].
  rewrite (length_flat_map_const _ 6)
    by (eapply Forall_impl; [|exact Hs]; now intros e [_ ?]).
  rewrite length_enumerate, (Permutation_length Hperm). reflexivity.
Qed.

(** X11: the undercitation step of the script, [find_undercited_publications]
    followed by [print_undercited_publications], never fails for a
    missing age or an error dictionary: for citation counts and a year
    of ordinary size, either the search raises [ValueError] on a year
    and nothing is printed, or the view ends normally after 4 lines for
    an empty selection and [3 + 6 n] lines for [n] selected
    publications. *)
Theorem undercitation_view_outcomes (int_max_str_digits : N)
    (publications : fetch_result) (current_year : Z) :
  small_counts publications ->
  small_int current_year ->
  match find_undercited_publications int_max_str_digits publications
          current_year with
  | Raise e =>
      e = ValueError
      /\ undercitation_view int_max_str_digits publications current_year
         = ([], Raise ValueError)
  | Ret undercited =>
      snd (undercitation_view int_max_str_digits publications current_year)
      = Ret tt
      /\ List.length
           (fst (undercitation_view int_max_str_digits publications
                   current_year))
         = match undercited with
           | [] => 4%nat
           | _ :: _ => (3 + 6 * List.length undercited)%nat
           end
  end.
Proof.
  intros _ _. unfold undercitation_view.
  destruct (find_undercited_publications int_max_str_digits publications
              current_year) as [out|e] eqn:E.
  - apply find_undercited_publications_aged in E.
    destruct (print_undercited_publications_aged out E) as (Hs & Hl).
    unfold io_bind, io_lift.
    destruct (print_undercited_publications (PubList out)) as [lines r].
    cbn [fst snd app] in *. now split.
  - assert (e = ValueError) as ->.
    { destruct publications as [l|msg]; cbn [find_undercited_publications] in E;
        [eapply undercited_loop_raises, E|discriminate]. }
    split; reflexivity.
Qed.

Lemma undercitation_view_outcomes_witness :
  snd (undercitation_view 4300
         (PubList [Sample.old_paper; Sample.uncited_paper; Sample.cited_paper])
         2025) = Ret tt
  /\ List.length
       (fst (undercitation_view 4300
               (PubList [Sample.old_paper; Sample.uncited_paper;
                         Sample.cited_paper])
               2025)) = 21%nat
  /\ undercitation_view 4300
       (PubList [Sample.old_paper; Sample.odd_year_paper]) 2025
     = ([], Raise ValueError).
Proof.
  assert (H1 : small_counts (PubList [Sample.old_paper; Sample.uncited_paper;
                                      Sample.cited_paper]))
    by (repeat constructor).
  assert (H2 : small_counts (PubList [Sample.old_paper; Sample.odd_year_paper]))
    by (repeat constructor).
  assert (Hy : small_int 2025) by reflexivity.
  pose proof (undercitation_view_outcomes 4300 _ 2025 H1 Hy) as Hok.
  pose proof (undercitation_view_outcomes 4300 _ 2025 H2 Hy) as Hbad.
  cbn in Hok, Hbad.
  destruct Hok as (Hs & Hl). destruct Hbad as (_ & Hr).
  split; [exact Hs|]. split; [exact Hl|exact Hr].
Defined.

Lemma set_age_twice (pub : publication) (a : Z) :
  set_age (set_age pub a) a = set_age pub a.
Proof. reflexivity. Qed.

Lemma undercited_entry_again max_digits cy pub pub' :
  undercited_entry max_digits cy pub = Ret (Some pub') ->
  undercited_entry max_digits cy pub' = Ret (Some pub').
Proof.
  intros H. apply undercited_entry_selects in H.
  destruct H as (Hd & y & Hy & Ha & Hc & ->).
  apply undercited_entry_selects. split; [exact Hd|].
  exists y. repeat split; assumption.
Qed.

Lemma undercited_loop_passing max_digits cy l : forall acc out,
  Forall (fun q => undercited_entry max_digits cy q = Ret (Some q)) acc ->
  undercited_loop max_digits cy l acc = Ret out ->
  Forall (fun q => undercited_entry max_digits cy q = Ret (Some q)) out.
Proof.
  induction l as [|p l IH]; intros acc out Hacc H; cbn [undercited_loop] in H.
  - now injection H as <-.
  - destruct (undercited_entry max_digits cy p) as [r|e] eqn:Ep; [|discriminate].
    cbn [obind] in H. eapply IH; [|exact H].
    destruct r as [q|]; [|exact Hacc].
    apply Forall_app. split; [exact Hacc|].
    repeat constructor. eapply undercited_entry_again, Ep.
Qed.

Lemma undercited_loop_all_pass max_digits cy l : forall acc,
  Forall (fun q => undercited_entry max_digits cy q = Ret (Some q)) l ->
  undercited_loop max_digits cy l acc = Ret (acc ++ l).
Proof.
  induction l as [|p l IH]; intros acc H; cbn [undercited_loop].
  - now rewrite app_nil_r.
  - inversion H as [|? ? Hp Hl]; subst. rewrite Hp. cbn [obind].
    rewrite IH by assumption. now rewrite <- app_assoc.
Qed.

(** X12: searching the undercited publications again in the list a
    first search returned, with the same year, returns that list
    unchanged. *)
Theorem find_undercited_publications_idempotent (int_max_str_digits : N)
    (publications : fetch_result) (current_year : Z)
    (undercited : list publication) :
  find_undercited_publications int_max_str_digits publications current_year
  = Ret undercited ->
  find_undercited_publications int_max_str_digits (PubList undercited)
    current_year
  = Ret undercited.
Proof.
  intros H. cbn [find_undercited_publications].
  rewrite undercited_loop_all_pass; [reflexivity|].
  destruct publications as [l|msg]; cbn [find_undercited_publications] in H.
  - eapply undercited_loop_passing; [|exact H]. constructor.
  - injection H as <-. constructor.
Qed.

Lemma find_undercited_publications_idempotent_witness :
  find_undercited_publications 4300
    (PubList [set_age Sample.old_paper 25; set_age Sample.cited_paper 10])
    2025
  = Ret [set_age Sample.old_paper 25; set_age Sample.cited_paper 10].
Proof.
  apply (find_undercited_publications_idempotent 4300
           (PubList [Sample.old_paper;
                     mk_pub "A preprint" "A. Author" "N/A" "N/A" 0;
                     Sample.cited_paper])).
  reflexivity.
Defined.

Lemma undercited_loop_order max_digits cy l : forall acc out,
  undercited_loop max_digits cy l acc = Ret out ->
  exists selected,
    out = acc ++ selected
    /\ Forall2 (fun pub pub' =>
                  undercited_entry max_digits cy pub = Ret (Some pub'))
         (filter (fun pub =>
                    match undercited_entry max_digits cy pub with
                    | Ret (Some _) => true
                    | _ => false
                    end) l)
         selected.
Proof.
  induction l as [|p l IH]; intros acc out H; cbn [undercited_loop] in H.
  - injection H as <-. exists []. split; [now rewrite app_nil_r|constructor].
  - cbn [filter].
    destruct (undercited_entry max_digits cy p) as [[q|]|e] eqn:Ep;
      cbn [obind] in H; [| |discriminate].
    + apply IH in H. destruct H as (sel & -> & Hsel).
      exists (q :: sel). split; [now rewrite <- app_assoc|].
      constructor; assumption.
    + apply IH in H. exact H.
Qed.

(** X13: the list [find_undercited_publications] returns follows the
    order of the list it was given: it is made of a selection of the
    given publications, in their order, each one unchanged but for its
    age, which is the given year minus the year the publication
    shows. *)
Theorem find_undercited_publications_keeps_order (int_max_str_digits : N)
    (publications undercited : list publication) (current_year : Z) :
  find_undercited_publications int_max_str_digits (PubList publications)
    current_year
  = Ret undercited ->
  exists keep : publication -> bool,
    Forall2 (fun pub pub' =>
               exists y,
                 PyStr.int int_max_str_digits (year pub) = Some y
                 /\ pub' = set_age pub (current_year - y))
      (filter keep publications) undercited
    /\ (List.length undercited <= List.length publications)%nat.
Proof.
  cbn [find_undercited_publications]. intros H.
  apply undercited_loop_order in H. destruct H as (sel & -> & Hsel).
  cbn [app].
  eexists. split.
  - eapply Forall2_impl; [|exact Hsel].
    intros pub pub' Hp. apply undercited_entry_selects in Hp.
    destruct Hp as (_ & y & Hy & _ & _ & ->). now exists y.
  - rewrite <- (Forall2_length Hsel). apply filter_length_le.
Qed.

Lemma find_undercited_publications_keeps_order_witness :
  exists keep : publication -> bool,
    Forall2 (fun pub pub' =>
               exists y,
                 PyStr.int 4300 (year pub) = Some y
                 /\ pub' = set_age pub (2025 - y))
      (filter keep [Sample.old_paper;
                    mk_pub "A preprint" "A. Author" "N/A" "N/A" 0;
                    Sample.cited_paper])
      [set_age Sample.old_paper 25; set_age Sample.cited_paper 10].
Proof.
  destruct (find_undercited_publications_keeps_order 4300
              [Sample.old_paper;
               mk_pub "A preprint" "A. Author" "N/A" "N/A" 0;
               Sample.cited_paper]
              [set_age Sample.old_paper 25; set_age Sample.cited_paper 10]
              2025 eq_refl) as (keep & H & _).
  now exists keep.
Defined.

(* ================================================================= *)
(** ** Ranking and summary: further properties *)

Section SortingAgain.

Context {A : Type}.

Lemma insert_keyed_least (x : Z * A) (l : list (Z * A)) :
  Forall (fun y => fst x <= fst y) l -> insert_keyed x l = x :: l.
Proof.
  destruct 1 as [|y l Hy _]; [reflexivity|].
  cbn [insert_keyed]. now apply Z.leb_le in Hy as ->.
Qed.

Lemma stable_sort_sorted_id (l : list (Z * A)) :
  StronglySorted key_le l -> stable_sort l = l.
Proof.
  induction 1 as [|x l Hl IH Hx]; [reflexivity|].
  cbn [stable_sort fold_right]. fold (stable_sort l). rewrite IH.
  now apply insert_keyed_least.
Qed.

Lemma StronglySorted_rev_le (l : list (Z * A)) :
  StronglySorted key_ge l -> StronglySorted key_le (rev l).
Proof.
  induction 1 as [|y l Hl IH Hy]; simpl; [constructor|].
  apply StronglySorted_snoc; [exact IH|].
  apply Forall_rev. exact Hy.
Qed.

Lemma sort_desc_sorted_id (l : list (Z * A)) :
  StronglySorted key_ge l -> sort_desc l = l.
Proof.
  intros H. unfold sort_desc.
  rewrite stable_sort_sorted_id by now apply StronglySorted_rev_le.
  apply rev_involutive.
Qed.

Lemma decorate_sorted (key : A -> Z) (l : list A) :
  StronglySorted (fun x y => key y <= key x) l ->
  StronglySorted key_ge (decorate key l).
Proof.
  induction 1 as [|x l Hl IH Hx]; [constructor|].
  cbn [decorate map]. constructor; [exact IH|].
  apply Forall_map. eapply Forall_impl; [|exact Hx]. now intros y Hy.
Qed.

(** Sorting a list that is already in non-increasing key order leaves it
    as it is. *)
Lemma py_sorted_desc_sorted_id (key : A -> Z) (l : list A) :
  StronglySorted (fun x y => key y <= key x) l -> py_sorted key true l = l.
Proof.
  intros H. unfold py_sorted. rewrite sorted_keyed_desc.
  rewrite sort_desc_sorted_id by now apply decorate_sorted.
  apply snd_decorate.
Qed.

End SortingAgain.

(** X14: ranking a ranking changes nothing: the order
    [print_publications_sorted] prints is the same whether it is given
    the publications in arrival order or already ranked. *)
Theorem ranking_idempotent (publications : list publication) :
  ranking (ranking publications) = ranking publications.
Proof.
  unfold ranking. apply py_sorted_desc_sorted_id, py_sorted_desc_sorted.
Qed.

Lemma total_citations_perm (l l' : list publication) :
  Permutation l l' -> total_citations l = total_citations l'.
Proof.
  intros H. rewrite !total_citations_sum.
  induction H; cbn [map fold_right]; lia.
Qed.

(** X15: if the summary block were given the ranking instead of the list
    in arrival order, the number of publications, the citation total
    and the outcome of the average would be the same, and the "most
    cited" figure would be the largest citation count of the list. *)
Theorem summary_of_ranking (pub : publication) (rest : list publication) :
  let publications := pub :: rest in
  List.length (ranking publications) = List.length publications
  /\ total_citations (ranking publications) = total_citations publications
  /\ avg_citations (ranking publications) = avg_citations publications
  /\ exists c,
       most_cited (ranking publications) = Some c
       /\ Forall (fun p => citations p <= c) publications
       /\ Exists (fun p => citations p = c) publications.
Proof.
  intros publications.
  pose proof (py_sorted_desc_perm citations publications) as Hperm.
  pose proof (py_sorted_desc_sorted citations publications) as Hsorted.
  fold (ranking publications) in Hperm, Hsorted.
  destruct (ranking publications) as [|top others] eqn:E.
  - apply Permutation_nil in Hperm. discriminate Hperm.
  - split; [apply (Permutation_length Hperm)|].
    split; [apply (total_citations_perm _ _ Hperm)|].
    split.
    + unfold publications, avg_citations.
      now rewrite (Permutation_length Hperm), (total_citations_perm _ _ Hperm).
    + exists (citations top). split; [reflexivity|]. split.
      * apply (Permutation_Forall Hperm).
        apply StronglySorted_inv in Hsorted. destruct Hsorted as [_ Hle].
        constructor; [lia|exact Hle].
      * apply Exists_exists. exists top. split; [|reflexivity].
        eapply Permutation_in; [exact Hperm|now left].
Qed.

Lemma nth_error_enumerate {A} (l : list A) : forall start k x,
  nth_error l k = Some x ->
  nth_error (enumerate start l) k = Some (start + Z.of_nat k, x).
Proof.
  induction l as [|y l IH]; intros start k x H; destruct k as [|k];
    try discriminate.
  - cbn in *. injection H as ->. now rewrite Z.add_0_r.
  - cbn [enumerate nth_error] in *. rewrite (IH _ _ _ H).
    do 2 f_equal. lia.
Qed.

Lemma nth_error_blocks {A B} (f : A -> list B) (n : nat) (l : list A) :
  Forall (fun x => List.length (f x) = n) l ->
  forall k i x,
    nth_error l k = Some x -> (i < n)%nat ->
    nth_error (flat_map f l) (n * k + i) = nth_error (f x) i.
Proof.
  induction 1 as [|y l Hy Hl IH]; intros k i x Hk Hi;
    destruct k as [|k]; try discriminate.
  - cbn in Hk. injection Hk as ->. cbn [flat_map].
    rewrite Nat.mul_0_r, Nat.add_0_l. apply nth_error_app1. lia.
  - cbn [nth_error] in Hk. cbn [flat_map].
    rewrite nth_error_app2 by lia.
    replace (n * S k + i - List.length (f y))%nat with (n * k + i)%nat by lia.
    now apply IH.
Qed.

(** X16: [print_publications_sorted] ends normally on the error
    dictionary and on every list of publications with citation counts
    of ordinary size, with
    one line for an error dictionary and [3 + 6 n] lines for [n]
    publications; the entry of the publication at place [k] of the
    ranking (counted from 0) starts at line [3 + 6 k] with its number
    [k + 1] and its title, and ends with its citation count and an
    empty line. *)
Theorem print_publications_sorted_lines (publications : fetch_result) :
  small_counts publications ->
  snd (print_publications_sorted publications) = Ret tt
  /\ match publications with
     | ErrorResult _ =>
         List.length (fst (print_publications_sorted publications)) = 1%nat
     | PubList l =>
         List.length (fst (print_publications_sorted publications))
         = (3 + 6 * List.length l)%nat
         /\ forall k pub,
              nth_error (ranking l) k = Some pub ->
              nth_error (fst (print_publications_sorted publications))
                (3 + 6 * k)
              = Some (PyStr.str_of_int (1 + Z.of_nat k) ++ ". " ++ title pub)%string
              /\ nth_error (fst (print_publications_sorted publications))
                   (3 + 6 * k + 4)
                 = Some ("   Citations: "
                         ++ PyStr.str_of_int (citations pub))%string
              /\ nth_error (fst (print_publications_sorted publications))
                   (3 + 6 * k + 5)
                 = Some EmptyString
     end.
Proof.
  intros _. destruct publications as [l|msg]; [|split; reflexivity].
  unfold print_publications_sorted.
  assert (Hio : io_for (enumerate 1 (ranking l))
                  (fun entry => io_for (render_ranked entry) print)
                = (flat_map render_ranked (enumerate 1 (ranking l)), Ret tt)).
  { rewrite io_for_ret.
    - f_equal. apply flat_map_ext. intros e. now rewrite io_for_print.
    - apply Forall_forall. intros e _. now rewrite io_for_print. }
  unfold io_bind, print in *. rewrite Hio. cbn [fst snd app].
  assert (Hblocks : Forall (fun e => List.length (render_ranked e) = 6%nat)
                      (enumerate 1 (ranking l))).
  { apply Forall_forall. now intros [i p] _. }
  split; [reflexivity|]. split.
  - cbn [List.length]. rewrite (length_flat_map_const _ 6 _ Hblocks).
    rewrite length_enumerate.
    now rewrite (Permutation_length (py_sorted_desc_perm citations l)
                 : List.length (ranking l) = List.length l).
  - intros k pub Hk.
    pose proof (nth_error_enumerate (ranking l) 1 k pub Hk) as Hentry.
    pose proof (nth_error_blocks render_ranked 6 _ Hblocks k) as Hnth.
    repeat split.
    + replace (3 + 6 * k)%nat with (S (S (S (6 * k + 0)))) by lia.
      cbn [nth_error]. now rewrite (Hnth 0%nat _ Hentry) by lia.
    + replace (3 + 6 * k + 4)%nat with (S (S (S (6 * k + 4)))) by lia.
      cbn [nth_error]. now rewrite (Hnth 4%nat _ Hentry) by lia.
    + replace (3 + 6 * k + 5)%nat with (S (S (S (6 * k + 5)))) by lia.
      cbn [nth_error]. now rewrite (Hnth 5%nat _ Hentry) by lia.
Qed.

Lemma print_publications_sorted_lines_witness :
  let publications :=
    PubList [Sample.uncited_paper; Sample.cited_paper; Sample.old_paper] in
  snd (print_publications_sorted publications) = Ret tt
  /\ List.length (fst (print_publications_sorted publications)) = 21%nat
  /\ nth_error (fst (print_publications_sorted publications)) 3
     = Some "1. A known paper"
  /\ nth_error (fst (print_publications_sorted publications)) 9
     = Some "2. A new paper".
Proof.
  intros publications.
  assert (H : small_counts publications) by (repeat constructor).
  destruct (print_publications_sorted_lines publications H) as (Hs & Hl & Hn).
  split; [exact Hs|]. split; [exact Hl|]. split.
  - exact (proj1 (Hn 0%nat Sample.cited_paper eq_refl)).
  - exact (proj1 (Hn 1%nat Sample.uncited_paper eq_refl)).
Defined.

(* ================================================================= *)
(** ** The script as a whole *)

Lemma io_bind_ends {A B} (m : io A) (k : A -> io B) (a : A) :
  snd m = Ret a -> io_bind m k = (fst m ++ fst (k a), snd (k a)).
Proof.
  destruct m as [out r]. cbn [fst snd]. intros ->.
  unfold io_bind. now destruct (k a).
Qed.

Lemma print_metrics_ends (m : metrics_result) : snd (print_metrics m) = Ret tt.
Proof. destruct m as [m|msg]; [|reflexivity]. cbn. now destruct (name m). Qed.

Lemma print_publications_sorted_ends (publications : fetch_result) :
  snd (print_publications_sorted publications) = Ret tt.
Proof.
  destruct publications as [l|msg]; [|reflexivity].
  unfold print_publications_sorted.
  assert (Hio : snd (io_for (enumerate 1 (ranking l))
                       (fun entry => io_for (render_ranked entry) print))
                = Ret tt).
  { rewrite io_for_ret; [reflexivity|].
    apply Forall_forall. intros e _. now rewrite io_for_print. }
  rewrite !(io_bind_ends (print _) _ tt) by reflexivity. exact Hio.
Qed.

Lemma summary_statistics_ends (publications : fetch_result)
    (undercited : list publication) :
  small_counts publications ->
  exists figures, summary_statistics publications undercited = Ret figures.
Proof.
  destruct publications as [[|p l]|msg]; intros Hsmall; try (now eexists).
  cbn [small_counts] in Hsmall.
  unfold summary_statistics. cbv beta iota.
  rewrite (avg_citations_small _ _ Hsmall). now eexists.
Qed.

Lemma print_summary_ends (format_2f : number -> string)
    (publications : fetch_result) (undercited : list publication) :
  small_counts publications ->
  snd (print_summary format_2f publications undercited) = Ret tt.
Proof.
  intros Hsmall. unfold print_summary.
  destruct (summary_statistics_ends publications undercited Hsmall)
    as (figures & ->).
  now destruct figures.
Qed.

(** X17: when the loop of [get_publications] ends and the citation
    counts it returns are of ordinary size, the script ends normally or
    is stopped by one exception only, the [ValueError] of
    [int(year_str)] in [find_undercited_publications]; the error
    dictionaries of the two scrapers, a missing age, an empty list or a
    division by zero never stop it. *)
Theorem script_outcomes (int_max_str_digits : N)
    (requests_get : string -> response) (format_2f : number -> string)
    (fuel : nat) (out : list string) (r : outcome unit) :
  (forall requested publications,
     get_publications int_max_str_digits requests_get fuel script_url
     = Some (requested, publications) ->
     small_counts publications) ->
  script int_max_str_digits requests_get format_2f fuel = Some (out, r) ->
  exists requested publications,
    get_publications int_max_str_digits requests_get fuel script_url
    = Some (requested, publications)
    /\ match find_undercited_publications int_max_str_digits publications 2025
       with
       | Ret _ => r = Ret tt
       | Raise _ => r = Raise ValueError
       end.
Proof.
  intros Hsmall. unfold script.
  destruct (get_publications int_max_str_digits requests_get fuel script_url)
    as [[requested publications]|]; [|discriminate].
  specialize (Hsmall requested publications eq_refl).
  intros H. exists requested, publications.
  split; [reflexivity|].
  assert (Hsnd : forall x y : io unit, Some x = Some y -> snd x = snd y)
    by (intros x y Hxy; now injection Hxy as ->).
  apply Hsnd in H. clear Hsnd. unfold snd at 2 in H. rewrite <- H. clear H.
  destruct (find_undercited_publications int_max_str_digits publications 2025)
    as [undercited|e] eqn:E.
  - rewrite (io_bind_ends (print _) _ tt) by reflexivity. cbn [snd].
    rewrite (io_bind_ends (print_metrics _) _ tt) by apply print_metrics_ends.
    cbn [snd].
    rewrite (io_bind_ends (print _) _ tt) by reflexivity. cbn [snd].
    rewrite (io_bind_ends (print_publications_sorted _) _ tt)
      by apply print_publications_sorted_ends.
    cbn [snd].
    rewrite (io_bind_ends (io_lift (Ret undercited)) _ undercited)
      by reflexivity.
    cbn [snd].
    apply find_undercited_publications_aged in E.
    rewrite (io_bind_ends (print_undercited_publications _) _ tt)
      by apply (print_undercited_publications_aged _ E).
    cbn [snd]. now apply print_summary_ends.
  - assert (e = ValueError) as ->.
    { destruct publications as [l|msg]; cbn [find_undercited_publications] in E;
        [eapply undercited_loop_raises, E|discriminate]. }
    rewrite (io_bind_ends (print _) _ tt) by reflexivity. cbn [snd].
    rewrite (io_bind_ends (print_metrics _) _ tt) by apply print_metrics_ends.
    cbn [snd].
    rewrite (io_bind_ends (print _) _ tt) by reflexivity. cbn [snd].
    rewrite (io_bind_ends (print_publications_sorted _) _ tt)
      by apply print_publications_sorted_ends.
    reflexivity.
Qed.

Lemma script_outcomes_witness :
  exists out,
    script 4300 Sample.two_pages_then_error (fun _ => "0.00") 3
    = Some (out, Ret tt)
    /\ exists out',
         script 4300 Sample.odd_year (fun _ => "0.00") 1
         = Some (out', Raise ValueError).
Proof.
  assert (Hsmall : forall requested publications,
            get_publications 4300 Sample.two_pages_then_error 3 script_url
            = Some (requested, publications) ->
            small_counts publications).
  { intros requested publications H. vm_compute in H.
    injection H as _ <-. exact I. }
  assert (Hsmall' : forall requested publications,
            get_publications 4300 Sample.odd_year 1 script_url
            = Some (requested, publications) ->
            small_counts publications).
  { intros requested publications H. vm_compute in H.
    injection H as _ <-. repeat constructor. }
  destruct (script 4300 Sample.two_pages_then_error (fun _ => "0.00") 3)
    as [[out r]|] eqn:E; [|vm_compute in E; discriminate E].
  destruct (script_outcomes 4300 Sample.two_pages_then_error (fun _ => "0.00")
              3 out r Hsmall E) as (requested & publications & Hget & Hr).
  vm_compute in Hget. injection Hget as _ <-.
  cbn in Hr. subst r. exists out. split; [reflexivity|].
  destruct (script 4300 Sample.odd_year (fun _ => "0.00") 1)
    as [[out' r']|] eqn:E'; [|vm_compute in E'; discriminate E'].
  destruct (script_outcomes 4300 Sample.odd_year (fun _ => "0.00")
              1 out' r' Hsmall' E') as (requested' & publications' & Hget' & Hr').
  vm_compute in Hget'. injection Hget' as _ <-.
  vm_compute in Hr'. subst r'. now exists out'.
Defined.

(** X18: when [get_publications] returns the error dictionary, the
    script prints, after the metrics block, the line "Error: ..." of
    the ranking view and the "none found" banner of the undercitation
    view, skips the summary and ends normally. *)
Theorem script_on_fetch_error (int_max_str_digits : N)
    (requests_get : string -> response) (format_2f : number -> string)
    (fuel : nat) (requested : list string) (msg : string) :
  get_publications int_max_str_digits requests_get fuel script_url
  = Some (requested, ErrorResult msg) ->
  script int_max_str_digits requests_get format_2f fuel
  = Some ([ ("Scraping Google Scholar profile: " ++ script_url ++ nl)%string ]
          ++ fst (print_metrics (get_h_index requests_get script_url))
          ++ [ (nl ++ "Fetching publications...")%string;
               ("Error: " ++ msg)%string;
               (nl ++ rule)%string; undercited_title; rule;
               (nl ++ "No undercited publications found.")%string ],
          Ret tt).
Proof.
  intros H. unfold script. rewrite H. f_equal.
  rewrite (io_bind_ends (print _) _ tt) by reflexivity.
  rewrite (io_bind_ends (print_metrics _) _ tt) by apply print_metrics_ends.
  cbn [fst snd print app]. reflexivity.
Qed.

Lemma script_on_fetch_error_witness :
  script 4300 Sample.two_pages_then_error (fun _ => "0.00") 3
  = Some ([ ("Scraping Google Scholar profile: " ++ script_url ++ nl)%string;
            "Error getting metrics: Request failed: 503 Server Error";
            (nl ++ "Fetching publications...")%string;
            "Error: Request failed: 503 Server Error";
            (nl ++ rule)%string; undercited_title; rule;
            (nl ++ "No undercited publications found.")%string ],
          Ret tt).
Proof.
  apply (script_on_fetch_error 4300 Sample.two_pages_then_error
           (fun _ => "0.00") 3
           [ listing_url "6ImtercAAAAJ" "de" 0;
             listing_url "6ImtercAAAAJ" "de" 100;
             listing_url "6ImtercAAAAJ" "de" 200 ]
           "Request failed: 503 Server Error").
  vm_compute. reflexivity.
Defined.

(** X19: for a profile page with the statistics table and at least six
    value cells, the metrics block prints the texts of the first six
    cells under the labels citations (all, since 2020), h-index (all,
    since 2020) and i10-index (all, since 2020), in this order, after
    the banner and the researcher's name when the page has one. *)
Theorem print_metrics_of_page (requests_get : string -> response)
    (scholar_url : string) (soup : node) (v0 v1 v2 v3 v4 v5 : node)
    (more : list node) :
  requests_get scholar_url = HttpOk soup ->
  find (has_id "table" "gsc_rsb_st") soup <> None ->
  find_all (has_class "td" "gsc_rsb_std") soup
  = v0 :: v1 :: v2 :: v3 :: v4 :: v5 :: more ->
  print_metrics (get_h_index requests_get scholar_url)
  = ([ PyStr.repeat_str "=" 50; "CITATION METRICS"; PyStr.repeat_str "=" 50 ]
     ++ match find (has_id "div" "gsc_prf_in") soup with
        | Some name_elem => [("Researcher: " ++ get_text_strip name_elem)%string]
        | None => []
        end
     ++ [ (nl ++ "Citations (All): " ++ get_text_strip v0)%string;
          ("Citations (Since 2020): " ++ get_text_strip v1)%string;
          (nl ++ "h-index (All): " ++ get_text_strip v2)%string;
          ("h-index (Since 2020): " ++ get_text_strip v3)%string;
          (nl ++ "i10-index (All): " ++ get_text_strip v4)%string;
          ("i10-index (Since 2020): " ++ get_text_strip v5)%string ],
     Ret tt).
Proof.
  intros Hget Htable Hcells. unfold get_h_index, parse_metrics.
  rewrite Hget, Hcells.
  destruct (find (has_id "table" "gsc_rsb_st") soup); [|congruence].
  unfold print_metrics.
  cbn [name citations_all citations_recent h_index_all h_index_recent
       i10_index_all i10_index_recent].
  destruct (find (has_id "div" "gsc_prf_in") soup); reflexivity.
Qed.

Lemma print_metrics_of_page_witness :
  print_metrics (get_h_index (fun _ => HttpOk Sample.split_profile) script_url)
  = ([ PyStr.repeat_str "=" 50; "CITATION METRICS"; PyStr.repeat_str "=" 50;
       "Researcher: A. Author";
       (nl ++ "Citations (All): 120")%string;
       "Citations (Since 2020): 80";
       (nl ++ "h-index (All): 6")%string;
       "h-index (Since 2020): 5";
       (nl ++ "i10-index (All): 4")%string;
       "i10-index (Since 2020): 3" ],
     Ret tt).
Proof.
  apply (print_metrics_of_page (fun _ => HttpOk Sample.split_profile) script_url
           Sample.split_profile
           (Sample.cell "120") (Sample.cell "80") (Sample.cell "6")
           (Sample.cell "5") (Sample.cell "4") (Sample.cell "3") []).
  - reflexivity.
  - vm_compute. discriminate.
  - reflexivity.
Defined.
